(** * GeoIQ file-share service: a model of [app.py] and its properties

    The application is a Flask module with five routes.  Three of them talk to
    a backend: [upload_file] and [download_file] to an S3 bucket through
    boto3, [db_test] to PostgreSQL through psycopg2.  Every backend call may
    raise, and every handler wraps its body in [try: ... except Exception].

    The handlers are embedded as programs over the backend calls they issue
    (a small free monad with exceptions).  A program is run against any
    backend, given as a function from calls and a world to an outcome and a
    new world; the run also records the calls in order.  A reference backend
    (an object store, one relation with its sequence, and a schedule of
    injected failures) gives the properties that depend on what the services
    do.  Requests are handled one at a time. *)

From Stdlib Require Import ZArith String Ascii List Strings.Byte Lia.
From stdpp Require Import gmap strings list option.

Local Open Scope Z_scope.

(** ** Python values *)

Abbreviation bytes := (list byte) (only parsing).

(** An exception carries its class name and the text [str(e)] gives. *)
Record PyException := mkExc { exc_class : string; exc_text : string }.

Definition str (e : PyException) : string := exc_text e.

(** What an f-string writes for a value that may be [None]. *)
Definition fstr (v : option string) : string := default "None" v.

(** [os.environ], and [os.getenv] with and without a default. *)
Abbreviation environment := (gmap string string) (only parsing).

Definition getenv (environ : environment) (k : string) : option string :=
  environ !! k.

Definition getenv_default (environ : environment) (k : string) (d : string)
    : string :=
  match environ !! k with
  | Some v => v
  | None => d
  end.

(** ** Flask values *)

#[local] Set Warnings "-register-all".

Inductive json : Type :=
| JNull
| JNum (n : Z)
| JStr (s : string)
| JArr (items : list json)
| JObj (members : list (string * json)).

Definition json_has_key (k : string) (j : json) : bool :=
  match j with
  | JObj members => existsb (fun kv => String.eqb (fst kv) k) members
  | _ => false
  end.

(** The body of a response: a [str] returned by a view, the result of
    [jsonify], or the result of [send_file]. *)
Inductive payload : Type :=
| Html (text : string)
| Json (j : json)
| SendFile (data : bytes) (download_name : string) (as_attachment : bool).

Record response := mkResponse { body : payload; status : Z }.

(** A view that returns a bare value answers 200. *)
Definition ok (p : payload) : response := mkResponse p 200.

Definition jsonify (members : list (string * json)) : payload :=
  Json (JObj members).

Definition send_file (file : bytes) (download_name : string)
    (as_attachment : bool) : payload :=
  SendFile file download_name as_attachment.

(** [request.files]: the file parts of the multipart form, in order. *)
Record FileStorage := mkFile { filename : string; stream : bytes }.

Record Request := mkRequest { files : list (string * FileStorage) }.

(** [key in request.files] *)
Definition multidict_contains (k : string) (d : list (string * FileStorage)) : bool :=
  existsb (fun kv => String.eqb (fst kv) k) d.

(** [request.files[key]]: the first value stored under the key. *)
Fixpoint multidict_first (k : string) (d : list (string * FileStorage))
    : option FileStorage :=
  match d with
  | [] => None
  | (k', v) :: d' => if String.eqb k' k then Some v else multidict_first k d'
  end.

Definition BadRequestKeyError (k : string) : PyException :=
  mkExc "BadRequestKeyError"
    "400 Bad Request: The browser (or proxy) sent a request that this server could not understand.".

(** ** Backend calls *)

Abbreviation connection := nat (only parsing).
Abbreviation cursor := nat (only parsing).
Abbreviation row := (Z * string)%type (only parsing).

Record conn_params := mkParams {
  host : option string;
  user : option string;
  password : option string;
  dbname : string;
  port : string + Z
}.

Inductive call : Type -> Type :=
| S3UploadFileobj (Fileobj : bytes) (Bucket : option string) (Key : string) : call unit
| S3DownloadFileobj (Bucket : option string) (Key : string) : call bytes
| PgConnect (p : conn_params) : call connection
| ConnCursor (conn : connection) : call cursor
| CurExecute (cur : cursor) (sql : string) : call unit
| ConnCommit (conn : connection) : call unit
| CurFetchall (cur : cursor) : call (list row)
| CurClose (cur : cursor) : call unit
| ConnClose (conn : connection) : call unit.

(** One entry of the record of a run: the call and how it ended. *)
Inductive event : Type :=
| Event {X : Type} (c : call X) (x : PyException + X).

(** ** Programs *)

Inductive prog (R : Type) : Type :=
| Ret (r : R)
| Raise (e : PyException)
| Vis {X : Type} (c : call X) (k : PyException + X -> prog R).

Arguments Ret {R} r.
Arguments Raise {R} e.
Arguments Vis {R X} c k.

Fixpoint bind {A B : Type} (p : prog A) (f : A -> prog B) : prog B :=
  match p with
  | Ret a => f a
  | Raise e => Raise e
  | Vis c k => Vis c (fun x => bind (k x) f)
  end.

Notation "x <- p ;; q" := (bind p (fun x => q))
  (at level 100, p at next level, q at level 200, right associativity).
Notation "p ;;; q" := (bind p (fun _ => q))
  (at level 100, q at level 200, right associativity).

(** A backend call: its result, or the exception it raised, raised here. *)
Definition perform {X : Type} (c : call X) : prog X :=
  Vis c (fun x => match x with inl e => Raise e | inr v => Ret v end).

(** [try: body except Exception as e: handler e] *)
Fixpoint try_except {R : Type} (body : prog R) (handler : PyException -> prog R)
    : prog R :=
  match body with
  | Ret r => Ret r
  | Raise e => handler e
  | Vis c k => Vis c (fun x => try_except (k x) handler)
  end.

(** Running a program against a backend. *)
Section Run.

Context {W : Type}.
Variable backend : forall X : Type, call X -> W -> (PyException + X) * W.

Record outcome (R : Type) := mkOutcome {
  result : PyException + R;
  final : W;
  trace : list event
}.
Arguments mkOutcome {R} _ _ _.
Arguments result {R} _.
Arguments final {R} _.
Arguments trace {R} _.

Fixpoint run {R : Type} (p : prog R) (w : W) : outcome R :=
  match p with
  | Ret r => mkOutcome (inr r) w []
  | Raise e => mkOutcome (inl e) w []
  | Vis c k =>
      let '(x, w') := backend _ c w in
      let o := run (k x) w' in
      mkOutcome (result o) (final o) (Event c x :: trace o)
  end.

End Run.

Arguments mkOutcome {W R} _ _ _.
Arguments result {W R} _.
Arguments final {W R} _.
Arguments trace {W R} _.

(** ** The pages

    The two HTML documents of the source, line by line.  [quoted] joins its
    segments with the double-quote character, [lines] joins with a newline. *)

Definition quote_char : string := String (ascii_of_nat 34) EmptyString.
Definition newline : string := String (ascii_of_nat 10) EmptyString.

Definition quoted (segments : list string) : string :=
  String.concat quote_char segments.

Definition lines (ls : list string) : string :=
  String.concat newline ls.

(** The template of [upload_page], one entry per source line. *)
Definition upload_page_html : string :=
  lines
    [ EmptyString
    ; "    <!DOCTYPE html>"
    ; quoted ["    <html lang="; "en"; ">"]
    ; "    <head>"
    ; quoted ["      <meta charset="; "UTF-8"; ">"]
    ; quoted ["      <meta name="; "viewport"; " content="; "width=device-width, initial-scale=1.0"; ">"]
    ; "      <title>Upload File | FileShare</title>"
    ; quoted ["      <link rel="; "stylesheet"; " href="; "https://cdnjs.cloudflare.com/ajax/libs/font-awesome/6.4.0/css/all.min.css"; ">"]
    ; "      <style>"
    ; "        body { font-family: Arial, sans-serif; background: #f4f7fa; display: flex; justify-content: center; align-items: center; height: 100vh; margin: 0; }"
    ; "        .container { text-align: center; background: #fff; padding: 40px; border-radius: 12px; box-shadow: 0 4px 15px rgba(0,0,0,0.1); width: 400px; }"
    ; "        h2 { color: #333; margin-bottom: 20px; }"
    ; "        input[type=file] { margin-bottom: 15px; }"
    ; "        .btn { background: #007bff; color: #fff; border: none; padding: 10px 20px; border-radius: 6px; cursor: pointer; font-size: 14px; }"
    ; "        .btn:hover { background: #0056b3; }"
    ; "      </style>"
    ; "    </head>"
    ; "    <body>"
    ; quoted ["      <div class="; "container"; ">"]
    ; quoted ["        <h2><i class="; "fas fa-cloud-upload-alt"; "></i> Upload File</h2>"]
    ; quoted ["        <form action="; "/upload_success"; " method="; "post"; " enctype="; "multipart/form-data"; ">"]
    ; quoted ["          <input type="; "file"; " name="; "file"; " required><br>"]
    ; quoted ["          <button class="; "btn"; " type="; "submit"; "><i class="; "fas fa-upload"; "></i> Upload</button>"]
    ; "        </form>"
    ; "      </div>"
    ; "    </body>"
    ; "    </html>"
    ; "    " ].

(** The success page up to the first occurrence of the URL. *)
Definition success_html_head : string :=
  lines
    [ EmptyString
    ; "        <!DOCTYPE html>"
    ; quoted ["        <html lang="; "en"; ">"]
    ; "        <head>"
    ; quoted ["          <meta charset="; "UTF-8"; ">"]
    ; quoted ["          <meta name="; "viewport"; " content="; "width=device-width, initial-scale=1.0"; ">"]
    ; "          <title>Upload Success | FileShare</title>"
    ; quoted ["          <link rel="; "stylesheet"; " href="; "https://cdnjs.cloudflare.com/ajax/libs/font-awesome/6.4.0/css/all.min.css"; ">"]
    ; "          <style>"
    ; "            body { font-family: Arial, sans-serif; background: #f4f7fa; display: flex; justify-content: center; align-items: center; height: 100vh; margin: 0; }"
    ; "            .container { text-align: center; background: #fff; padding: 40px; border-radius: 12px; box-shadow: 0 4px 15px rgba(0,0,0,0.1); width: 500px; }"
    ; "            .success-icon { font-size: 60px; color: #28a745; margin-bottom: 20px; }"
    ; "            h2 { color: #333; margin-bottom: 10px; }"
    ; "            p { color: #666; margin-bottom: 20px; }"
    ; "            .url-box { display: flex; justify-content: space-between; align-items: center; border: 1px solid #ddd; padding: 10px; border-radius: 8px; margin-bottom: 20px; }"
    ; "            .url-text { flex: 1; word-break: break-all; text-align: left; }"
    ; "            .copy-btn { background: #007bff; color: #fff; border: none; padding: 8px 15px; border-radius: 6px; cursor: pointer; }"
    ; "            .copy-btn:hover { background: #0056b3; }"
    ; "            .action-buttons { display: flex; justify-content: center; gap: 10px; }"
    ; "            .btn { padding: 10px 20px; border-radius: 6px; text-decoration: none; font-size: 14px; }"
    ; "            .btn-primary { background: #007bff; color: #fff; }"
    ; "            .btn-secondary { background: #6c757d; color: #fff; }"
    ; "            .btn-primary:hover { background: #0056b3; }"
    ; "            .btn-secondary:hover { background: #565e64; }"
    ; "          </style>"
    ; "        </head>"
    ; "        <body>"
    ; quoted ["          <div class="; "container"; ">"]
    ; quoted ["            <div class="; "success-icon"; "><i class="; "fas fa-check-circle"; "></i></div>"]
    ; "            <h2>File Uploaded Successfully!</h2>"
    ; "            <p>Your file has been uploaded. Copy the URL below to share it:</p>"
    ; quoted ["            <div class="; "url-box"; ">"]
    ; quoted ["              <div class="; "url-text"; " id="; "url-text"; ">"] ].

(** The success page between the two occurrences of the URL. *)
Definition success_html_middle : string :=
  lines
    [ "</div>"
    ; quoted ["              <button class="; "copy-btn"; " id="; "copy-btn"; "><i class="; "fas fa-copy"; "></i> Copy</button>"]
    ; "            </div>"
    ; quoted ["            <div class="; "action-buttons"; ">"]
    ; quoted ["              <a href="; "/upload"; " class="; "btn btn-secondary"; "><i class="; "fas fa-arrow-left"; "></i> Back to Upload</a>"]
    ; quoted ["              <a href="; EmptyString] ].

(** The success page after the second occurrence of the URL. *)
Definition success_html_tail : string :=
  lines
    [ quoted [EmptyString; " target="; "_blank"; " class="; "btn btn-primary"; "><i class="; "fas fa-share-alt"; "></i> Open File</a>"]
    ; "            </div>"
    ; "          </div>"
    ; "          <script>"
    ; quoted ["            const copyBtn = document.getElementById("; "copy-btn"; ");"]
    ; quoted ["            const urlText = document.getElementById("; "url-text"; ").innerText;"]
    ; quoted ["            copyBtn.addEventListener("; "click"; ", () => {"]
    ; "              navigator.clipboard.writeText(urlText).then(() => {"
    ; quoted ["                copyBtn.innerHTML = "; "<i class='fas fa-check'></i> Copied!"; ";"]
    ; "                setTimeout(() => {"
    ; quoted ["                  copyBtn.innerHTML = "; "<i class='fas fa-copy'></i> Copy"; ";"]
    ; "                }, 2000);"
    ; "              });"
    ; "            });"
    ; "          </script>"
    ; "        </body>"
    ; "        </html>"
    ; "        " ].

(** ** The application *)

Definition CREATE_TABLE : string :=
  "CREATE TABLE IF NOT EXISTS test (id serial PRIMARY KEY, data varchar(100));".
Definition INSERT_ROW : string :=
  "INSERT INTO test (data) VALUES ('GeoIQ');".
Definition SELECT_ALL : string :=
  "SELECT * FROM test;".

(** [jsonify] of the list of tuples [fetchall] returns. *)
Definition json_of_rows (results : list row) : json :=
  JArr (map (fun r : row => JArr [JNum (fst r); JStr (snd r)]) results).

(** [request.files[k]]; a missing key raises. *)
Definition multidict_getitem (k : string) (d : list (string * FileStorage))
    : prog FileStorage :=
  match multidict_first k d with
  | Some v => Ret v
  | None => Raise (BadRequestKeyError k)
  end.

Section App.

Variable environ : environment.

(** The module globals, read once at start-up. *)
Definition bucket : option string := getenv environ "S3_BUCKET".
Definition region : string := getenv_default environ "AWS_DEFAULT_REGION" "us-east-1".

(** The clause [except Exception as e] every handler ends with. *)
Definition error_500 (e : PyException) : prog response :=
  Ret (mkResponse (jsonify [("error", JStr (str e))]) 500).

Definition health_check : prog response :=
  Ret (mkResponse (Html "200 OK") 200).

Definition upload_page : prog response :=
  Ret (ok (Html upload_page_html)).

Definition upload_file (request : Request) : prog response :=
  try_except
    (if negb (multidict_contains "file" (files request)) then
       Ret (mkResponse (jsonify [("error", JStr "No file part in the request")]) 400)
     else
       file <- multidict_getitem "file" (files request) ;;
       if String.eqb (filename file) EmptyString then
         Ret (mkResponse (jsonify [("error", JStr "No selected file")]) 400)
       else
         perform (S3UploadFileobj (stream file) bucket (filename file)) ;;;
         let url :=
           "https://" +:+ fstr bucket +:+ ".s3." +:+ region
             +:+ ".amazonaws.com/" +:+ filename file in
         let success_html :=
           success_html_head +:+ url +:+ success_html_middle +:+ url
             +:+ success_html_tail in
         Ret (ok (Html success_html)))
    error_500.

Definition download_file (name : string) : prog response :=
  try_except
    (file <- perform (S3DownloadFileobj bucket name) ;;
     Ret (ok (send_file file name true)))
    error_500.

Definition db_params : conn_params :=
  {| host := getenv environ "DB_HOST";
     user := getenv environ "DB_USER";
     password := getenv environ "DB_PASSWORD";
     dbname := getenv_default environ "DB_NAME" "postgres";
     port := match getenv environ "DB_PORT" with
             | Some v => inl v
             | None => inr 5432
             end |}.

Definition db_test : prog response :=
  try_except
    (conn <- perform (PgConnect db_params) ;;
     cur <- perform (ConnCursor conn) ;;
     perform (CurExecute cur CREATE_TABLE) ;;;
     perform (CurExecute cur INSERT_ROW) ;;;
     perform (ConnCommit conn) ;;;
     perform (CurExecute cur SELECT_ALL) ;;;
     results <- perform (CurFetchall cur) ;;
     perform (CurClose cur) ;;;
     perform (ConnClose conn) ;;;
     Ret (ok (jsonify [("results", json_of_rows results)])))
    error_500.

(** The routing table. *)
Inductive route : Type :=
| RouteUp
| RouteUpload
| RouteUploadSuccess (request : Request)
| RouteFile (name : string)
| RouteDbTest.

Definition dispatch (r : route) : prog response :=
  match r with
  | RouteUp => health_check
  | RouteUpload => upload_page
  | RouteUploadSuccess request => upload_file request
  | RouteFile name => download_file name
  | RouteDbTest => db_test
  end.

End App.

(** ** A reference backend

    The object store maps bucket names to their objects.  The database holds
    the committed contents of relation [test] ([None] while it does not
    exist) and the next value of its [id] sequence, which, as in PostgreSQL,
    is not rolled back.  Connections and cursors are handles into two
    tables.  A statement that raises leaves the open transaction as it was;
    no handler issues a call after one has raised.

    A world is a store together with a schedule of injected failures, one
    entry per call: [Some e] makes the call raise [e] and do nothing else. *)

Record conn_state := mkConn {
  conn_closed : bool;
  conn_txn : option (option (list row))
}.

Record cur_state := mkCur {
  cur_conn : connection;
  cur_closed : bool;
  cur_result : option (list row)
}.

Record Store := mkStore {
  s3_buckets : gmap string (gmap string bytes);
  pg_table : option (list row);
  pg_seq : Z;
  pg_conns : gmap connection conn_state;
  pg_cursors : gmap cursor cur_state
}.

Record World := mkWorld {
  store : Store;
  faults : list (option PyException)
}.

Definition with_buckets (b : gmap string (gmap string bytes)) (s : Store) : Store :=
  mkStore b (pg_table s) (pg_seq s) (pg_conns s) (pg_cursors s).
Definition with_table (t : option (list row)) (s : Store) : Store :=
  mkStore (s3_buckets s) t (pg_seq s) (pg_conns s) (pg_cursors s).
Definition with_seq (n : Z) (s : Store) : Store :=
  mkStore (s3_buckets s) (pg_table s) n (pg_conns s) (pg_cursors s).
Definition with_conns (cs : gmap connection conn_state) (s : Store) : Store :=
  mkStore (s3_buckets s) (pg_table s) (pg_seq s) cs (pg_cursors s).
Definition with_cursors (cs : gmap cursor cur_state) (s : Store) : Store :=
  mkStore (s3_buckets s) (pg_table s) (pg_seq s) (pg_conns s) cs.

Definition ParamValidationError (param : string) : PyException :=
  mkExc "ParamValidationError"
    ("Parameter validation failed: invalid value for parameter " +:+ param).
Definition NoSuchBucket : PyException :=
  mkExc "ClientError"
    "An error occurred (NoSuchBucket) when calling the PutObject operation: The specified bucket does not exist".
(** What [download_fileobj] raises for a key that is not in the bucket. *)
Definition NotFound : PyException :=
  mkExc "ClientError"
    "An error occurred (404) when calling the HeadObject operation: Not Found".
Definition InterfaceError (what : string) : PyException :=
  mkExc "InterfaceError" (what +:+ " already closed").
Definition UndefinedTable : PyException :=
  mkExc "UndefinedTable" "relation test does not exist".
Definition UniqueViolation : PyException :=
  mkExc "UniqueViolation" "duplicate key value violates unique constraint test_pkey".
Definition SyntaxError : PyException :=
  mkExc "SyntaxError" "statement not understood".
Definition NoResults : PyException :=
  mkExc "ProgrammingError" "no results to fetch".

(** The object stored under a key of a bucket. *)
Definition s3_object (b : string) (k : string) (s : Store) : option bytes :=
  s3_buckets s !! b ≫= (fun objects : gmap string bytes => objects !! k).

Definition s3_upload_fileobj (Fileobj : bytes) (Bucket : option string)
    (Key : string) (s : Store) : (PyException + unit) * Store :=
  match Bucket with
  | None => (inl (ParamValidationError "Bucket"), s)
  | Some b =>
      if String.eqb Key EmptyString then (inl (ParamValidationError "Key"), s)
      else
        match s3_buckets s !! b with
        | None => (inl NoSuchBucket, s)
        | Some objects =>
            (inr tt, with_buckets (<[b := <[Key := Fileobj]> objects]> (s3_buckets s)) s)
        end
  end.

Definition s3_download_fileobj (Bucket : option string) (Key : string)
    (s : Store) : (PyException + bytes) * Store :=
  match Bucket with
  | None => (inl (ParamValidationError "Bucket"), s)
  | Some b =>
      if String.eqb Key EmptyString then (inl (ParamValidationError "Key"), s)
      else
        match s3_object b Key s with
        | None => (inl NotFound, s)
        | Some data => (inr data, s)
        end
  end.

Definition pg_connect (s : Store) : (PyException + connection) * Store :=
  let conn := fresh (dom (pg_conns s)) in
  (inr conn, with_conns (<[conn := mkConn false None]> (pg_conns s)) s).

(** The open connection behind a handle. *)
Definition open_conn (conn : connection) (s : Store) : option conn_state :=
  match pg_conns s !! conn with
  | Some c => if conn_closed c then None else Some c
  | None => None
  end.

Definition open_cursor (cur : cursor) (s : Store) : option cur_state :=
  match pg_cursors s !! cur with
  | Some c => if cur_closed c then None else Some c
  | None => None
  end.

Definition conn_cursor (conn : connection) (s : Store)
    : (PyException + cursor) * Store :=
  match open_conn conn s with
  | None => (inl (InterfaceError "connection"), s)
  | Some _ =>
      let cur := fresh (dom (pg_cursors s)) in
      (inr cur, with_cursors (<[cur := mkCur conn false None]> (pg_cursors s)) s)
  end.

(** One statement on the working copy [t] of the relation: the new working
    copy, the new sequence value and the result set, or an error together
    with the sequence value it leaves. *)
Definition statement (sql : string) (t : option (list row)) (seq : Z)
    : PyException * Z + option (list row) * Z * option (list row) :=
  if String.eqb sql CREATE_TABLE then
    match t with
    | Some rows => inr (Some rows, seq, None)
    | None => inr (Some [], 1, None)
    end
  else if String.eqb sql INSERT_ROW then
    match t with
    | None => inl (UndefinedTable, seq)
    | Some rows =>
        if existsb (fun r : row => Z.eqb (fst r) seq) rows
        then inl (UniqueViolation, seq + 1)
        else inr (Some (rows ++ [(seq, "GeoIQ")]), seq + 1, None)
    end
  else if String.eqb sql SELECT_ALL then
    match t with
    | None => inl (UndefinedTable, seq)
    | Some rows => inr (Some rows, seq, Some rows)
    end
  else inl (SyntaxError, seq).

Definition cur_execute (cur : cursor) (sql : string) (s : Store)
    : (PyException + unit) * Store :=
  match open_cursor cur s with
  | None => (inl (InterfaceError "cursor"), s)
  | Some cs =>
      match open_conn (cur_conn cs) s with
      | None => (inl (InterfaceError "connection"), s)
      | Some c =>
          (* the first statement on a connection begins a transaction *)
          let t := default (pg_table s) (conn_txn c) in
          match statement sql t (pg_seq s) with
          | inl (e, seq) => (inl e, with_seq seq s)
          | inr (t', seq, res) =>
              (inr tt,
               with_cursors (<[cur := mkCur (cur_conn cs) false res]> (pg_cursors s))
                 (with_conns (<[cur_conn cs := mkConn false (Some t')]> (pg_conns s))
                    (with_seq seq s)))
          end
      end
  end.

Definition conn_commit (conn : connection) (s : Store)
    : (PyException + unit) * Store :=
  match open_conn conn s with
  | None => (inl (InterfaceError "connection"), s)
  | Some c =>
      match conn_txn c with
      | None => (inr tt, s)
      | Some t =>
          (inr tt,
           with_conns (<[conn := mkConn false None]> (pg_conns s)) (with_table t s))
      end
  end.

Definition cur_fetchall (cur : cursor) (s : Store)
    : (PyException + list row) * Store :=
  match open_cursor cur s with
  | None => (inl (InterfaceError "cursor"), s)
  | Some cs =>
      match cur_result cs with
      | None => (inl NoResults, s)
      | Some rows =>
          (inr rows,
           with_cursors (<[cur := mkCur (cur_conn cs) false (Some [])]> (pg_cursors s)) s)
      end
  end.

Definition cur_close (cur : cursor) (s : Store) : (PyException + unit) * Store :=
  match pg_cursors s !! cur with
  | None => (inl (InterfaceError "cursor"), s)
  | Some cs =>
      (inr tt, with_cursors (<[cur := mkCur (cur_conn cs) true None]> (pg_cursors s)) s)
  end.

(** Closing a connection discards its open transaction. *)
Definition conn_close (conn : connection) (s : Store)
    : (PyException + unit) * Store :=
  match pg_conns s !! conn with
  | None => (inl (InterfaceError "connection"), s)
  | Some _ => (inr tt, with_conns (<[conn := mkConn true None]> (pg_conns s)) s)
  end.

(** The services without failures of their own making. *)
Definition serve (X : Type) (c : call X) : Store -> (PyException + X) * Store :=
  match c in call X return Store -> (PyException + X) * Store with
  | S3UploadFileobj f b k => s3_upload_fileobj f b k
  | S3DownloadFileobj b k => s3_download_fileobj b k
  | PgConnect _ => pg_connect
  | ConnCursor conn => conn_cursor conn
  | CurExecute cur sql => cur_execute cur sql
  | ConnCommit conn => conn_commit conn
  | CurFetchall cur => cur_fetchall cur
  | CurClose cur => cur_close cur
  | ConnClose conn => conn_close conn
  end.

(** The reference backend: the head of the schedule decides whether the
    call fails; an exhausted schedule injects nothing. *)
Definition reference (X : Type) (c : call X) (w : World)
    : (PyException + X) * World :=
  match faults w with
  | Some e :: fs => (inl e, mkWorld (store w) fs)
  | fs =>
      let '(x, s) := serve X c (store w) in
      (x, mkWorld s (tail fs))
  end.

(** The next [n] calls meet no injected failure. *)
Definition fault_free (n : nat) (w : World) : Prop :=
  Forall (fun f => f = None) (take n (faults w)).

(** ** Reading a trace *)

Definition raised (ev : event) : option PyException :=
  match ev with
  | Event _ (inl e) => Some e
  | Event _ (inr _) => None
  end.

(** The exception of the first call that raised. *)
Fixpoint first_raised (tr : list event) : option PyException :=
  match tr with
  | [] => None
  | ev :: tr' =>
      match raised ev with
      | Some e => Some e
      | None => first_raised tr'
      end
  end.

(** [conn.close()] was called and returned. *)
Definition closes_connection (ev : event) : bool :=
  match ev with
  | Event (ConnClose _) (inr _) => true
  | _ => false
  end.

(** The two answers of the validation of an upload, and the answer of every
    [except] clause. *)
Definition no_file_part : response :=
  mkResponse (jsonify [("error", JStr "No file part in the request")]) 400.
Definition no_selected_file : response :=
  mkResponse (jsonify [("error", JStr "No selected file")]) 400.
Definition internal_error (e : PyException) : response :=
  mkResponse (jsonify [("error", JStr (str e))]) 500.

(** The page a successful upload answers with, for a given URL. *)
Definition success_page (url : string) : response :=
  ok (Html (success_html_head +:+ url +:+ success_html_middle +:+ url
              +:+ success_html_tail)).

(** The pattern of object URLs as the interface description gives it:
    [https://{bucket}.s3.{region}.amazonaws.com/{key}]. *)
Definition spec_object_url (bucket region key : string) : string :=
  "https://" +:+ bucket +:+ ".s3." +:+ region +:+ ".amazonaws.com/" +:+ key.

(** The calls of a run of [db_test] in which every call returned. *)
Definition db_test_calls (environ : environment) (conn : connection)
    (cur : cursor) (results : list row) : list event :=
  [ Event (PgConnect (db_params environ)) (inr conn);
    Event (ConnCursor conn) (inr cur);
    Event (CurExecute cur CREATE_TABLE) (inr tt);
    Event (CurExecute cur INSERT_ROW) (inr tt);
    Event (ConnCommit conn) (inr tt);
    Event (CurExecute cur SELECT_ALL) (inr tt);
    Event (CurFetchall cur) (inr results);
    Event (CurClose cur) (inr tt);
    Event (ConnClose conn) (inr tt) ].

(** The array under ["results"] in the answer of [db_test]. *)
Definition result_set (r : response) : option (list json) :=
  match body r with
  | Json (JObj [(k, JArr items)]) =>
      if String.eqb k "results" then Some items else None
  | _ => None
  end.

(** The id the next insert draws, and whether a stored row already has it. *)
Definition next_id (s : Store) : Z :=
  match pg_table s with
  | Some _ => pg_seq s
  | None => 1
  end.

Definition id_taken (s : Store) : bool :=
  existsb (fun r : row => Z.eqb (fst r) (next_id s)) (default [] (pg_table s)).

(** Upload [request], whose part ["file"] is [file], then download under the
    name of [file]: the download answers with the bytes of [file]. *)
Definition round_trip (environ : environment) (w : World) (request : Request)
    (file : FileStorage) : Prop :=
  let uploaded := run reference (upload_file environ request) w in
  result (run reference (download_file environ (filename file)) (final uploaded))
  = inr (ok (send_file (stream file) (filename file) true)).

(** One invocation of [db_test] appends one row of value GeoIQ to the
    committed relation and answers with its full contents. *)
Definition probe_inserts_one_row (environ : environment) (w : World) : Prop :=
  let o := run reference (db_test environ) w in
  exists id : Z,
    let rows := default [] (pg_table (store w)) ++ [(id, "GeoIQ")] in
    pg_table (store (final o)) = Some rows /\
    result o = inr (ok (jsonify [("results", json_of_rows rows)])).

(** The connection of [db_test] opens. *)
Definition connection_succeeds (environ : environment) (w : World) : Prop :=
  exists conn w',
    reference connection (PgConnect (db_params environ)) w = (inr conn, w').

(** The text of an HTML answer. *)
Definition page_text (r : response) : string :=
  match body r with
  | Html text => text
  | _ => EmptyString
  end.

(** ** More on traces and requests *)

(** The call goes to the object store; every other call goes to the
    database. *)
Definition touches_s3 (ev : event) : bool :=
  match ev with
  | Event (S3UploadFileobj _ _ _) _ => true
  | Event (S3DownloadFileobj _ _) _ => true
  | _ => false
  end.

Definition touches_db (ev : event) : bool := negb (touches_s3 ev).

(** [conn.commit()] was called and returned. *)
Definition commits (ev : event) : bool :=
  match ev with
  | Event (ConnCommit _) (inr _) => true
  | _ => false
  end.

(** No call follows a call that raised. *)
Fixpoint only_last_raises (tr : list event) : bool :=
  match tr with
  | [] => true
  | ev :: tr' =>
      match raised ev with
      | Some _ => match tr' with [] => true | _ :: _ => false end
      | None => only_last_raises tr'
      end
  end.

(** Requests handled one after the other: the answers, and the world the
    last one leaves. *)
Fixpoint handle_in_sequence {W : Type}
    (backend : forall X : Type, call X -> W -> (PyException + X) * W)
    (environ : environment) (rs : list route) (w : W)
    : list (PyException + response) * W :=
  match rs with
  | [] => ([], w)
  | r :: rs' =>
      let o := run backend (dispatch environ r) w in
      let '(answers, w') := handle_in_sequence backend environ rs' (final o) in
      (result o :: answers, w')
  end.

Definition answered_200 (a : PyException + response) : bool :=
  match a with
  | inr resp => Z.eqb (status resp) 200
  | inl _ => false
  end.

(** ** Sample inputs *)

Module Sample.

Definition environ : environment := {[ "S3_BUCKET" := "geoiq-files" ]}.

Definition report : FileStorage := mkFile "report.pdf" [x25; x50; x44; x46].
Definition unnamed : FileStorage := mkFile EmptyString [x25; x50; x44; x46].

Definition post (file : FileStorage) : Request := mkRequest [("file", file)].
Definition post_without_file : Request := mkRequest [].

(** The bucket exists and is empty, the relation does not exist yet. *)
Definition fresh_store : Store :=
  mkStore {[ "geoiq-files" := ∅ ]} None 1 ∅ ∅.

(** The bucket already holds an object under the name of [report]. *)
Definition used_store : Store :=
  mkStore {[ "geoiq-files" := {[ "report.pdf" := [x00] ]} ]} None 1 ∅ ∅.

Definition healthy (s : Store) : World := mkWorld s [].

Definition ConnectionReset : PyException :=
  mkExc "OperationalError" "server closed the connection unexpectedly".

(** The connection opens, the cursor opens, the table is created, and the
    insert fails. *)
Definition insert_fails : World :=
  mkWorld fresh_store [None; None; None; Some ConnectionReset].

(** The fetch from the object store fails. *)
Definition fetch_fails : World :=
  mkWorld used_store [Some ConnectionReset].

(** The relation holds a row whose id is the next value of the sequence, as
    after an insert with an explicit id. *)
Definition id_in_use : World :=
  mkWorld (mkStore {[ "geoiq-files" := ∅ ]} (Some [(1, "GeoIQ")]) 1 ∅ ∅) [].

End Sample.

Module Failure.

(** The first five calls of the probe are served, commit included, and the
    SELECT fails. *)
Definition select_fails : World :=
  mkWorld Sample.fresh_store
    [None; None; None; None; None; Some Sample.ConnectionReset].

End Failure.

(** * Properties *)

(** ** Running programs *)

Ltac backend_step backend :=
  match goal with
  | |- context [backend ?X ?c ?w] =>
      let e := fresh "e" in
      let x := fresh "x" in
      let w' := fresh "w" in
      let E := fresh "Hcall" in
      destruct (backend X c w) as [[e | x] w'] eqn:E; cbn
  end.

Lemma multidict_first_contains k d v :
  multidict_first k d = Some v -> multidict_contains k d = true.
Proof.
  induction d as [| [k' v'] d IH]; cbn; [discriminate |].
  destruct (String.eqb k' k); [reflexivity | exact IH].
Qed.

Lemma multidict_contains_first k d :
  multidict_contains k d = true -> exists v, multidict_first k d = Some v.
Proof.
  induction d as [| [k' v'] d IH]; cbn; [discriminate |].
  destruct (String.eqb k' k); [eauto | exact IH].
Qed.

Section AnyBackend.

Context {W : Type}.
Variable backend : forall X : Type, call X -> W -> (PyException + X) * W.
Variable environ : environment.

(** The three shapes of a run of [upload_file]. *)
Lemma upload_file_missing request w :
  multidict_contains "file" (files request) = false ->
  run backend (upload_file environ request) w = mkOutcome (inr no_file_part) w [].
Proof. intros H. unfold upload_file. rewrite H. reflexivity. Qed.

Lemma upload_file_empty request file w :
  multidict_first "file" (files request) = Some file ->
  filename file = EmptyString ->
  run backend (upload_file environ request) w = mkOutcome (inr no_selected_file) w [].
Proof.
  intros H1 H2. unfold upload_file, multidict_getitem.
  rewrite (multidict_first_contains _ _ _ H1), H1. cbn. rewrite H2. reflexivity.
Qed.

Lemma upload_file_put request file w :
  multidict_first "file" (files request) = Some file ->
  filename file <> EmptyString ->
  let c := S3UploadFileobj (stream file) (bucket environ) (filename file) in
  let url := "https://" +:+ fstr (bucket environ) +:+ ".s3." +:+ region environ
               +:+ ".amazonaws.com/" +:+ filename file in
  run backend (upload_file environ request) w =
    mkOutcome
      (inr match fst (backend unit c w) with
           | inl e => internal_error e
           | inr _ => success_page url
           end)
      (snd (backend unit c w))
      [Event c (fst (backend unit c w))].
Proof.
  intros H1 H2. unfold upload_file, multidict_getitem.
  rewrite (multidict_first_contains _ _ _ H1), H1. cbn.
  destruct (String.eqb_spec (filename file) EmptyString) as [E | _]; [contradiction |].
  cbn. backend_step backend; reflexivity.
Qed.

Lemma download_file_run name w :
  let c := S3DownloadFileobj (bucket environ) name in
  run backend (download_file environ name) w =
    mkOutcome
      (inr match fst (backend bytes c w) with
           | inl e => internal_error e
           | inr file => ok (send_file file name true)
           end)
      (snd (backend bytes c w))
      [Event c (fst (backend bytes c w))].
Proof. cbn. backend_step backend; reflexivity. Qed.

(** The first call of a [try] block. *)
Lemma run_try_bind_perform {R X : Type} (c : call X) (f : X -> prog R)
    (h : PyException -> prog R) w :
  run backend (try_except (bind (perform c) f) h) w =
    let o :=
      match fst (backend X c w) with
      | inl e => run backend (h e) (snd (backend X c w))
      | inr x => run backend (try_except (f x) h) (snd (backend X c w))
      end in
    mkOutcome (result o) (final o) (Event c (fst (backend X c w)) :: trace o).
Proof. cbn. destruct (backend X c w) as [[e | x] w']; reflexivity. Qed.

Lemma db_test_all_return w conn w1 cur w2 w3 w4 w5 w6 results w7 w8 w9 :
  backend _ (PgConnect (db_params environ)) w = (inr conn, w1) ->
  backend _ (ConnCursor conn) w1 = (inr cur, w2) ->
  backend _ (CurExecute cur CREATE_TABLE) w2 = (inr tt, w3) ->
  backend _ (CurExecute cur INSERT_ROW) w3 = (inr tt, w4) ->
  backend _ (ConnCommit conn) w4 = (inr tt, w5) ->
  backend _ (CurExecute cur SELECT_ALL) w5 = (inr tt, w6) ->
  backend _ (CurFetchall cur) w6 = (inr results, w7) ->
  backend _ (CurClose cur) w7 = (inr tt, w8) ->
  backend _ (ConnClose conn) w8 = (inr tt, w9) ->
  run backend (db_test environ) w =
    mkOutcome (inr (ok (jsonify [("results", json_of_rows results)]))) w9
      (db_test_calls environ conn cur results).
Proof.
  intros H1 H2 H3 H4 H5 H6 H7 H8 H9. cbn.
  rewrite H1; cbn. rewrite H2; cbn. rewrite H3; cbn. rewrite H4; cbn.
  rewrite H5; cbn. rewrite H6; cbn. rewrite H7; cbn. rewrite H8; cbn.
  rewrite H9; cbn. reflexivity.
Qed.

Lemma db_test_insert_raises w conn w1 cur w2 w3 e w4 :
  backend _ (PgConnect (db_params environ)) w = (inr conn, w1) ->
  backend _ (ConnCursor conn) w1 = (inr cur, w2) ->
  backend _ (CurExecute cur CREATE_TABLE) w2 = (inr tt, w3) ->
  backend _ (CurExecute cur INSERT_ROW) w3 = (inl e, w4) ->
  run backend (db_test environ) w =
    mkOutcome (inr (internal_error e)) w4
      [ Event (PgConnect (db_params environ)) (inr conn);
        Event (ConnCursor conn) (inr cur);
        Event (CurExecute cur CREATE_TABLE) (inr tt);
        Event (CurExecute cur INSERT_ROW) (inl e) ].
Proof.
  intros H1 H2 H3 H4. cbn.
  rewrite H1; cbn. rewrite H2; cbn. rewrite H3; cbn. rewrite H4; cbn.
  reflexivity.
Qed.

(** A run of [db_test] either stops at the first call that raises, before
    any [conn.close()] has returned, or makes all nine calls. *)
Lemma db_test_run w :
  (exists e,
      first_raised (trace (run backend (db_test environ) w)) = Some e /\
      result (run backend (db_test environ) w) = inr (internal_error e) /\
      existsb closes_connection (trace (run backend (db_test environ) w)) = false)
  \/
  (exists conn cur results,
      trace (run backend (db_test environ) w)
        = db_test_calls environ conn cur results /\
      result (run backend (db_test environ) w)
        = inr (ok (jsonify [("results", json_of_rows results)]))).
Proof.
  cbn.
  repeat (backend_step backend; [left; eexists; repeat split; reflexivity |]).
  repeat match goal with u : unit |- _ => destruct u end.
  right. eexists _, _, _. split; reflexivity.
Qed.

End AnyBackend.

(** ** The reference backend *)

Lemma statement_create t seq :
  statement CREATE_TABLE t seq =
    inr (Some (default [] t), match t with Some _ => seq | None => 1 end, None).
Proof. destruct t; reflexivity. Qed.

Lemma statement_insert rows seq :
  statement INSERT_ROW (Some rows) seq =
    if existsb (fun r : row => Z.eqb (fst r) seq) rows
    then inl (UniqueViolation, seq + 1)
    else inr (Some (rows ++ [(seq, "GeoIQ")]), seq + 1, None).
Proof. reflexivity. Qed.

Lemma statement_select rows seq :
  statement SELECT_ALL (Some rows) seq = inr (Some rows, seq, Some rows).
Proof. reflexivity. Qed.

Ltac serve_step :=
  cbn -[fresh statement];
  unfold conn_cursor, cur_execute, conn_commit, cur_fetchall, cur_close,
    conn_close, open_conn, open_cursor;
  repeat progress
    (cbn -[fresh statement];
     rewrite ?lookup_insert_eq, ?statement_create, ?statement_insert,
       ?statement_select).

(** The run of [db_test] on the services themselves, when the id the insert
    draws is free. *)
Lemma db_test_serve environ s :
  id_taken s = false ->
  let conn := fresh (dom (pg_conns s)) in
  let cur := fresh (dom (pg_cursors s)) in
  let rows := default [] (pg_table s) ++ [(next_id s, "GeoIQ")] in
  run serve (db_test environ) s =
    mkOutcome (inr (ok (jsonify [("results", json_of_rows rows)])))
      (mkStore (s3_buckets s) (Some rows) (next_id s + 1)
         (<[conn := mkConn true None]> (pg_conns s))
         (<[cur := mkCur conn true None]> (pg_cursors s)))
      (db_test_calls environ conn cur rows).
Proof.
  destruct s as [bk t seq conns curs]. unfold id_taken, next_id.
  cbn [pg_table pg_seq pg_conns pg_cursors s3_buckets]. intros Hfree.
  etransitivity.
  - eapply db_test_all_return.
    + reflexivity.
    + serve_step. reflexivity.
    + serve_step. reflexivity.
    + serve_step. rewrite Hfree. reflexivity.
    + serve_step. reflexivity.
    + serve_step. reflexivity.
    + serve_step. reflexivity.
    + serve_step. reflexivity.
    + serve_step. reflexivity.
  - cbn -[fresh]. rewrite !insert_insert_eq. reflexivity.
Qed.

(** When a stored row already has that id, the insert raises. *)
Lemma db_test_serve_taken environ s :
  id_taken s = true ->
  result (run serve (db_test environ) s) = inr (internal_error UniqueViolation).
Proof.
  destruct s as [bk t seq conns curs]. unfold id_taken, next_id.
  cbn [pg_table pg_seq pg_conns pg_cursors s3_buckets]. intros Htaken.
  erewrite db_test_insert_raises; [reflexivity | ..].
  - reflexivity.
  - serve_step. reflexivity.
  - serve_step. reflexivity.
  - serve_step. rewrite Htaken. reflexivity.
Qed.

Lemma fault_free_cases n w :
  fault_free (S n) w ->
  faults w = [] \/ exists fs, faults w = None :: fs /\ fault_free n (mkWorld (store w) fs).
Proof.
  unfold fault_free. destruct (faults w) as [| f fs]; [by left |].
  cbn. intros H. apply Forall_cons_1 in H as [Hf H]. subst f. right. by exists fs.
Qed.

Lemma fault_free_head n w : fault_free (S n) w -> fault_free 1 w.
Proof.
  intros H. destruct (fault_free_cases _ _ H) as [E | (fs & E & _)];
    unfold fault_free; rewrite E; cbn; [constructor |].
  rewrite take_0. by repeat constructor.
Qed.

Lemma drop_S_tail {A} (l : list A) n : drop (S n) l = drop n (tail l).
Proof. destruct l; cbn; [by rewrite drop_nil | done]. Qed.

Lemma fault_free_tail n w s :
  fault_free (S n) w -> fault_free n (mkWorld s (tail (faults w))).
Proof.
  intros H. destruct (fault_free_cases _ _ H) as [E | (fs & E & H')]; rewrite E.
  - unfold fault_free. cbn. by rewrite take_nil.
  - exact H'.
Qed.

(** Without an injected failure the reference backend is the service. *)
Lemma reference_serve X (c : call X) w :
  fault_free 1 w ->
  reference X c w =
    (fst (serve X c (store w)), mkWorld (snd (serve X c (store w))) (tail (faults w))).
Proof.
  intros H. unfold reference.
  destruct (fault_free_cases _ _ H) as [E | (fs & E & _)]; rewrite E;
    by destruct (serve X c (store w)).
Qed.

(** A run that meets no injected failure is the run on the services. *)
Lemma run_reference_fault_free R (p : prog R) :
  forall (n : nat) (w : World),
    fault_free n w ->
    (length (trace (run serve p (store w))) <= n)%nat ->
    run reference p w =
      let o := run serve p (store w) in
      mkOutcome (result o)
        (mkWorld (final o) (drop (length (trace o)) (faults w)))
        (trace o).
Proof.
  induction p as [r | e | X c k IH]; intros n w Hn Hlen.
  - cbn. by destruct w.
  - cbn. by destruct w.
  - cbn in *. destruct (serve X c (store w)) as [x s] eqn:Hs. cbn in Hlen.
    destruct n as [| n]; [lia |].
    rewrite reference_serve, Hs by (eapply fault_free_head; exact Hn). cbn.
    rewrite (IH x n (mkWorld s (tail (faults w)))); cbn.
    + by rewrite drop_S_tail.
    + by apply fault_free_tail.
    + lia.
Qed.

(** A run in which every call returned is the run on the services. *)
Lemma run_reference_returned R (p : prog R) :
  forall w : World,
    first_raised (trace (run reference p w)) = None ->
    run serve p (store w) =
      let o := run reference p w in
      mkOutcome (result o) (store (final o)) (trace o).
Proof.
  induction p as [r | e | X c k IH]; intros w Hnone; [reflexivity .. |].
  cbn in *. unfold reference in *.
  destruct (faults w) as [| [e |] fs]; cbn in Hnone |- *; try discriminate;
    destruct (serve X c (store w)) as [[e | x] s]; cbn in Hnone |- *;
    try discriminate;
    pose proof (IH _ _ Hnone) as E; cbn in E; by rewrite E.
Qed.

(** ** The success page determines its URL *)

Lemma string_length_app (s t : string) :
  String.length (s +:+ t) = (String.length s + String.length t)%nat.
Proof.
  induction s as [| a s IH]; [reflexivity |].
  change (S (String.length (s +:+ t)) = S (String.length s + String.length t)).
  by rewrite IH.
Qed.

Lemma string_app_prefix_inj (u u' r r' : string) :
  String.length u = String.length u' -> u +:+ r = u' +:+ r' -> u = u'.
Proof.
  revert u'. induction u as [| a u IH]; intros [| a' u'] Hlen Happ;
    try discriminate Hlen; [reflexivity |].
  cbn in Hlen, Happ. injection Hlen as Hlen. injection Happ as Ha Happ.
  subst a'. f_equal. by apply IH.
Qed.

Lemma success_page_inj url url' :
  success_page url = success_page url' -> url = url'.
Proof.
  intros H. apply (f_equal page_text) in H. unfold success_page in H.
  cbn [page_text body ok] in H.
  apply (inj (String.app success_html_head)) in H.
  assert (Hlen : String.length url = String.length url').
  { apply (f_equal String.length) in H. rewrite !string_length_app in H. lia. }
  exact (string_app_prefix_inj _ _ _ _ Hlen H).
Qed.

(** ** The handlers *)

(** C3. A POST to the upload handler whose form has no part named [file] is
    answered 400 with a JSON object that has the key [error], and no call
    reaches the object store: the run has no call and leaves the world as it
    was, whatever the backend. *)
Theorem upload_without_file_part
    {W : Type} (backend : forall X : Type, call X -> W -> (PyException + X) * W)
    (environ : environment) (request : Request) (w : W) :
  multidict_contains "file" (files request) = false ->
  exists j,
    result (run backend (upload_file environ request) w)
      = inr (mkResponse (Json j) 400) /\
    json_has_key "error" j = true /\
    trace (run backend (upload_file environ request) w) = [] /\
    final (run backend (upload_file environ request) w) = w.
Proof.
  intros H. rewrite (upload_file_missing backend environ request w H).
  eexists. repeat split.
Qed.

Lemma upload_without_file_part_witness :
  multidict_contains "file" (files Sample.post_without_file) = false /\
  exists j,
    result (run reference (upload_file Sample.environ Sample.post_without_file)
              (Sample.healthy Sample.fresh_store))
      = inr (mkResponse (Json j) 400) /\
    json_has_key "error" j = true /\
    trace (run reference (upload_file Sample.environ Sample.post_without_file)
             (Sample.healthy Sample.fresh_store)) = [] /\
    final (run reference (upload_file Sample.environ Sample.post_without_file)
             (Sample.healthy Sample.fresh_store))
      = Sample.healthy Sample.fresh_store.
Proof.
  assert (H : multidict_contains "file" (files Sample.post_without_file) = false)
    by reflexivity.
  split; [exact H |].
  exact (upload_without_file_part reference Sample.environ
           Sample.post_without_file (Sample.healthy Sample.fresh_store) H).
Defined.

(** C4. A POST to the upload handler whose part [file] has the empty
    filename is answered 400 with a JSON object that has the key [error]. *)
Theorem upload_with_empty_filename
    {W : Type} (backend : forall X : Type, call X -> W -> (PyException + X) * W)
    (environ : environment) (request : Request) (file : FileStorage) (w : W) :
  multidict_first "file" (files request) = Some file ->
  filename file = EmptyString ->
  exists j,
    result (run backend (upload_file environ request) w)
      = inr (mkResponse (Json j) 400) /\
    json_has_key "error" j = true.
Proof.
  intros H1 H2. rewrite (upload_file_empty backend environ request file w H1 H2).
  eexists. split; reflexivity.
Qed.

Lemma upload_with_empty_filename_witness :
  (multidict_first "file" (files (Sample.post Sample.unnamed)) = Some Sample.unnamed /\
   filename Sample.unnamed = EmptyString) /\
  exists j,
    result (run reference (upload_file Sample.environ (Sample.post Sample.unnamed))
              (Sample.healthy Sample.fresh_store))
      = inr (mkResponse (Json j) 400) /\
    json_has_key "error" j = true.
Proof.
  assert (H1 : multidict_first "file" (files (Sample.post Sample.unnamed))
               = Some Sample.unnamed) by reflexivity.
  assert (H2 : filename Sample.unnamed = EmptyString) by reflexivity.
  split; [split; assumption |].
  exact (upload_with_empty_filename reference Sample.environ
           (Sample.post Sample.unnamed) Sample.unnamed
           (Sample.healthy Sample.fresh_store) H1 H2).
Defined.

(** C5. Whatever exception the fetch from the object store raises for the
    requested name, the download handler answers 500 with the JSON object
    whose key [error] holds the text of the exception.  The answer depends
    on the exception through that text only, so the exception for a missing
    key is treated like any other. *)
Theorem download_failure_is_500
    {W : Type} (backend : forall X : Type, call X -> W -> (PyException + X) * W)
    (environ : environment) (name : string) (w w' : W) (e : PyException) :
  backend bytes (S3DownloadFileobj (bucket environ) name) w = (inl e, w') ->
  result (run backend (download_file environ name) w)
    = inr (mkResponse (Json (JObj [("error", JStr (str e))])) 500) /\
  json_has_key "error" (JObj [("error", JStr (str e))]) = true.
Proof.
  intros H. rewrite download_file_run. cbn. rewrite H. split; reflexivity.
Qed.

Lemma download_failure_is_500_witness :
  reference bytes (S3DownloadFileobj (bucket Sample.environ) "does-not-exist")
    (Sample.healthy Sample.fresh_store)
    = (inl NotFound, Sample.healthy Sample.fresh_store) /\
  result (run reference (download_file Sample.environ "does-not-exist")
            (Sample.healthy Sample.fresh_store))
    = inr (mkResponse (Json (JObj [("error", JStr (str NotFound))])) 500) /\
  json_has_key "error" (JObj [("error", JStr (str NotFound))]) = true.
Proof.
  assert (H : reference bytes
                (S3DownloadFileobj (bucket Sample.environ) "does-not-exist")
                (Sample.healthy Sample.fresh_store)
              = (inl NotFound, Sample.healthy Sample.fresh_store))
    by reflexivity.
  split; [exact H |].
  exact (download_failure_is_500 reference Sample.environ "does-not-exist"
           (Sample.healthy Sample.fresh_store) (Sample.healthy Sample.fresh_store)
           NotFound H).
Defined.

(** C10. The upload handler tests for the part [file] before it looks at the
    filename.  A form without the part gets the answer of the first test,
    400 with the missing-part error: the lookup of the part, which would
    raise and be answered 500, is not reached.  A form whose first part
    [file] has the empty filename gets the answer of the second test.
    Whenever the answer is 400 it is one of these two, the first exactly when
    the part is missing, no call has been made, and the world, the object
    store included, is as it was. *)
Theorem upload_validation_before_storage
    {W : Type} (backend : forall X : Type, call X -> W -> (PyException + X) * W)
    (environ : environment) (request : Request) (w : W) :
  (multidict_contains "file" (files request) = false ->
   result (run backend (upload_file environ request) w) = inr no_file_part) /\
  (forall file,
      multidict_first "file" (files request) = Some file ->
      filename file = EmptyString ->
      result (run backend (upload_file environ request) w) = inr no_selected_file) /\
  (forall resp,
      result (run backend (upload_file environ request) w) = inr resp ->
      status resp = 400 ->
      (if multidict_contains "file" (files request)
       then resp = no_selected_file
       else resp = no_file_part) /\
      trace (run backend (upload_file environ request) w) = [] /\
      final (run backend (upload_file environ request) w) = w).
Proof.
  split; [| split].
  - intros Hin. by rewrite (upload_file_missing backend environ request w Hin).
  - intros file Hfile He.
    by rewrite (upload_file_empty backend environ request file w Hfile He).
  - intros resp Hres Hst.
    destruct (multidict_contains "file" (files request)) eqn:Hin.
    + destruct (multidict_contains_first _ _ Hin) as [file Hfile].
      destruct (String.eqb_spec (filename file) EmptyString) as [He | Hne].
      * rewrite (upload_file_empty backend environ request file w Hfile He) in Hres |- *.
        cbn [result trace final] in Hres |- *. injection Hres as <-. repeat split.
      * rewrite (upload_file_put backend environ request file w Hfile Hne) in Hres.
        cbn [result] in Hres. injection Hres as Hr. rewrite <- Hr in Hst.
        destruct (fst (backend _ _ w)); discriminate Hst.
    + rewrite (upload_file_missing backend environ request w Hin) in Hres |- *.
      cbn [result trace final] in Hres |- *. injection Hres as <-. repeat split.
Qed.

Lemma upload_validation_before_storage_witness :
  (multidict_contains "file" (files Sample.post_without_file) = false /\
   result (run reference (upload_file Sample.environ Sample.post_without_file)
             (Sample.healthy Sample.used_store)) = inr no_file_part) /\
  ((multidict_first "file" (files (Sample.post Sample.unnamed)) = Some Sample.unnamed /\
    filename Sample.unnamed = EmptyString) /\
   result (run reference (upload_file Sample.environ (Sample.post Sample.unnamed))
             (Sample.healthy Sample.used_store)) = inr no_selected_file) /\
  ((result (run reference (upload_file Sample.environ Sample.post_without_file)
              (Sample.healthy Sample.used_store)) = inr no_file_part /\
    status no_file_part = 400) /\
   (if multidict_contains "file" (files Sample.post_without_file)
    then no_file_part = no_selected_file
    else no_file_part = no_file_part) /\
   trace (run reference (upload_file Sample.environ Sample.post_without_file)
            (Sample.healthy Sample.used_store)) = [] /\
   final (run reference (upload_file Sample.environ Sample.post_without_file)
            (Sample.healthy Sample.used_store))
     = Sample.healthy Sample.used_store).
Proof.
  assert (H0 : multidict_contains "file" (files Sample.post_without_file) = false)
    by reflexivity.
  assert (H1 : multidict_first "file" (files (Sample.post Sample.unnamed))
               = Some Sample.unnamed) by reflexivity.
  assert (H2 : filename Sample.unnamed = EmptyString) by reflexivity.
  assert (H3 : result (run reference
                         (upload_file Sample.environ Sample.post_without_file)
                         (Sample.healthy Sample.used_store)) = inr no_file_part)
    by reflexivity.
  assert (H4 : status no_file_part = 400) by reflexivity.
  split; [split; [exact H0 |] | split; [split; [split; assumption |] | split; [split; assumption |]]].
  - exact (proj1 (upload_validation_before_storage reference Sample.environ
                    Sample.post_without_file (Sample.healthy Sample.used_store)) H0).
  - exact (proj1 (proj2 (upload_validation_before_storage reference Sample.environ
                           (Sample.post Sample.unnamed)
                           (Sample.healthy Sample.used_store))) _ H1 H2).
  - exact (proj2 (proj2 (upload_validation_before_storage reference Sample.environ
                           Sample.post_without_file
                           (Sample.healthy Sample.used_store))) _ H3 H4).
Defined.

(** C2. When the upload handler answers 200, the answer is the success page
    for the URL [https://{bucket}.s3.{region}.amazonaws.com/{k}], where [k] is
    the filename of the part [file], the bucket is the variable [S3_BUCKET]
    of the environment and the region is the variable [AWS_DEFAULT_REGION],
    or [us-east-1] without it.  The page is the page of no other URL, and
    the URL depends on nothing but these three. *)
Theorem upload_success_url
    {W : Type} (backend : forall X : Type, call X -> W -> (PyException + X) * W)
    (environ : environment) (request : Request) (w : W) (resp : response) :
  result (run backend (upload_file environ request) w) = inr resp ->
  status resp = 200 ->
  exists file,
    multidict_first "file" (files request) = Some file /\
    resp = success_page
             (spec_object_url (fstr (environ !! "S3_BUCKET"))
                (default "us-east-1" (environ !! "AWS_DEFAULT_REGION"))
                (filename file)) /\
    forall url,
      resp = success_page url ->
      url = spec_object_url (fstr (environ !! "S3_BUCKET"))
              (default "us-east-1" (environ !! "AWS_DEFAULT_REGION"))
              (filename file).
Proof.
  intros Hres Hst.
  destruct (multidict_contains "file" (files request)) eqn:Hin.
  - destruct (multidict_contains_first _ _ Hin) as [file Hfile].
    exists file. split; [exact Hfile |].
    destruct (String.eqb_spec (filename file) EmptyString) as [He | Hne].
    + rewrite (upload_file_empty backend environ request file w Hfile He) in Hres.
      cbn [result] in Hres. injection Hres as Hr. rewrite <- Hr in Hst.
      discriminate Hst.
    + rewrite (upload_file_put backend environ request file w Hfile Hne) in Hres.
      cbn [result] in Hres. injection Hres as Hr.
      destruct (fst (backend _ _ w)).
      * rewrite <- Hr in Hst. discriminate Hst.
      * assert (Hpage : resp = success_page
                  (spec_object_url (fstr (environ !! "S3_BUCKET"))
                     (default "us-east-1" (environ !! "AWS_DEFAULT_REGION"))
                     (filename file))).
        { rewrite <- Hr.
          unfold spec_object_url, region, getenv_default, bucket, getenv.
          destruct (environ !! "AWS_DEFAULT_REGION"); reflexivity. }
        split; [exact Hpage |].
        intros url Hurl. rewrite Hpage in Hurl. symmetry.
        exact (success_page_inj _ _ Hurl).
  - rewrite (upload_file_missing backend environ request w Hin) in Hres.
    cbn [result] in Hres. injection Hres as Hr. rewrite <- Hr in Hst.
    discriminate Hst.
Qed.

Lemma upload_success_url_witness :
  (result (run reference (upload_file Sample.environ (Sample.post Sample.report))
             (Sample.healthy Sample.fresh_store))
     = inr (success_page
              "https://geoiq-files.s3.us-east-1.amazonaws.com/report.pdf") /\
   status (success_page
             "https://geoiq-files.s3.us-east-1.amazonaws.com/report.pdf") = 200) /\
  exists file,
    multidict_first "file" (files (Sample.post Sample.report)) = Some file /\
    success_page "https://geoiq-files.s3.us-east-1.amazonaws.com/report.pdf"
    = success_page
        (spec_object_url (fstr (Sample.environ !! "S3_BUCKET"))
           (default "us-east-1" (Sample.environ !! "AWS_DEFAULT_REGION"))
           (filename file)) /\
    forall url,
      success_page "https://geoiq-files.s3.us-east-1.amazonaws.com/report.pdf"
      = success_page url ->
      url = spec_object_url (fstr (Sample.environ !! "S3_BUCKET"))
              (default "us-east-1" (Sample.environ !! "AWS_DEFAULT_REGION"))
              (filename file).
Proof.
  assert (H1 : result (run reference
                         (upload_file Sample.environ (Sample.post Sample.report))
                         (Sample.healthy Sample.fresh_store))
               = inr (success_page
                        "https://geoiq-files.s3.us-east-1.amazonaws.com/report.pdf"))
    by (vm_compute; reflexivity).
  assert (H2 : status (success_page
                         "https://geoiq-files.s3.us-east-1.amazonaws.com/report.pdf")
               = 200) by reflexivity.
  split; [split; assumption |].
  exact (upload_success_url reference Sample.environ (Sample.post Sample.report)
           (Sample.healthy Sample.fresh_store) _ H1 H2).
Defined.

(** C6. In every handler the answer is a response, never an exception that
    escapes.  If a backend call raised, the answer is 500 with the JSON
    object whose only key [error] holds the text of the exception.  If none
    raised, the answer is 200, except for the two answers of the validation
    of an upload, which are 400 and come before any call. *)
Theorem error_taxonomy
    {W : Type} (backend : forall X : Type, call X -> W -> (PyException + X) * W)
    (environ : environment) (r : route) (w : W) :
  exists resp,
    result (run backend (dispatch environ r) w) = inr resp /\
    match first_raised (trace (run backend (dispatch environ r) w)) with
    | Some e => resp = mkResponse (Json (JObj [("error", JStr (str e))])) 500
    | None =>
        status resp = 200 \/
        (status resp = 400 /\
         (resp = no_file_part \/ resp = no_selected_file) /\
         trace (run backend (dispatch environ r) w) = [] /\
         exists request, r = RouteUploadSuccess request)
    end.
Proof.
  destruct r as [| | request | name |]; cbn [dispatch].
  - eexists. split; [reflexivity |]. left. reflexivity.
  - eexists. split; [reflexivity |]. left. reflexivity.
  - destruct (multidict_contains "file" (files request)) eqn:Hin.
    + destruct (multidict_contains_first _ _ Hin) as [file Hfile].
      destruct (String.eqb_spec (filename file) EmptyString) as [He | Hne].
      * rewrite (upload_file_empty backend environ request file w Hfile He).
        eexists. split; [reflexivity |]. right.
        repeat split; [right; reflexivity | eexists; reflexivity].
      * rewrite (upload_file_put backend environ request file w Hfile Hne).
        eexists. split; [reflexivity |]. cbn [trace first_raised raised].
        destruct (fst (backend _ _ w)); [reflexivity | left; reflexivity].
    + rewrite (upload_file_missing backend environ request w Hin).
      eexists. split; [reflexivity |]. right.
      repeat split; [left; reflexivity | eexists; reflexivity].
  - rewrite download_file_run. eexists. split; [reflexivity |].
    cbn [trace first_raised raised].
    destruct (fst (backend _ _ w)); [reflexivity | left; reflexivity].
  - destruct (db_test_run backend environ w)
      as [(e & Hraised & Hres & _) | (conn & cur & results & Htrace & Hres)].
    + eexists. split; [exact Hres |]. rewrite Hraised. reflexivity.
    + eexists. split; [exact Hres |]. rewrite Htrace. left. reflexivity.
Qed.

(** C8. When [db_test] answers 200, its calls are the nine calls of the
    handler, each returned, and the last two are [cur.close()] and
    [conn.close()] on the cursor and the connection it opened.  When the
    connection was opened and a later call raised, the answer is 500 and no
    [conn.close()] has returned: the error path does not close. *)
Theorem db_test_closes_on_success_only
    {W : Type} (backend : forall X : Type, call X -> W -> (PyException + X) * W)
    (environ : environment) (w : W) :
  (forall resp,
      result (run backend (db_test environ) w) = inr resp ->
      status resp = 200 ->
      exists conn cur results pre,
        trace (run backend (db_test environ) w)
          = db_test_calls environ conn cur results /\
        db_test_calls environ conn cur results
          = pre ++ [Event (CurClose cur) (inr tt); Event (ConnClose conn) (inr tt)]) /\
  (forall conn rest e,
      trace (run backend (db_test environ) w)
        = Event (PgConnect (db_params environ)) (inr conn) :: rest ->
      first_raised rest = Some e ->
      result (run backend (db_test environ) w) = inr (internal_error e) /\
      existsb closes_connection rest = false).
Proof.
  destruct (db_test_run backend environ w)
    as [(e & Hraised & Hres & Hopen) | (conn & cur & results & Htrace & Hres)].
  - split.
    + intros resp Hresp Hst. rewrite Hres in Hresp. injection Hresp as Hr.
      rewrite <- Hr in Hst. discriminate Hst.
    + intros conn rest e' Htrace Hrest. rewrite Htrace in Hraised, Hopen.
      cbn [first_raised raised existsb closes_connection orb] in Hraised, Hopen.
      split; [congruence | exact Hopen].
  - split.
    + intros _ _ _. exists conn, cur, results.
      eexists (take 7 (db_test_calls environ conn cur results)).
      split; [exact Htrace | reflexivity].
    + intros conn' rest e Htrace' Hrest. rewrite Htrace in Htrace'.
      unfold db_test_calls in Htrace'. injection Htrace' as _ Hr. subst rest.
      discriminate Hrest.
Qed.

(** ** Upload and download on the reference backend *)

Lemma bucket_lookup environ b :
  environ !! "S3_BUCKET" = Some b -> bucket environ = Some b.
Proof. intros H. exact H. Qed.

(** A put into an existing bucket under a non-empty key stores the bytes. *)
Lemma serve_put content b key s objects :
  key <> EmptyString ->
  s3_buckets s !! b = Some objects ->
  serve unit (S3UploadFileobj content (Some b) key) s =
    (inr tt, with_buckets (<[b := <[key := content]> objects]> (s3_buckets s)) s).
Proof.
  intros Hkey Hb. cbn. unfold s3_upload_fileobj.
  destruct (String.eqb_spec key EmptyString) as [E | _]; [contradiction |].
  by rewrite Hb.
Qed.

(** A get of a stored key returns its bytes. *)
Lemma serve_get content b key s :
  key <> EmptyString ->
  s3_object b key s = Some content ->
  serve bytes (S3DownloadFileobj (Some b) key) s = (inr content, s).
Proof.
  intros Hkey Hobj. cbn. unfold s3_download_fileobj.
  destruct (String.eqb_spec key EmptyString) as [E | _]; [contradiction |].
  by rewrite Hobj.
Qed.

Lemma s3_object_put content b key s objects :
  s3_object b key
    (with_buckets (<[b := <[key := content]> objects]> (s3_buckets s)) s)
  = Some content.
Proof.
  unfold s3_object. cbn. rewrite lookup_insert_eq. cbn. apply lookup_insert_eq.
Qed.

(** The run of a successful upload on the reference backend. *)
Lemma upload_file_stores environ request file w b objects :
  multidict_first "file" (files request) = Some file ->
  filename file <> EmptyString ->
  environ !! "S3_BUCKET" = Some b ->
  s3_buckets (store w) !! b = Some objects ->
  fault_free 1 w ->
  run reference (upload_file environ request) w =
    mkOutcome
      (inr (success_page
              (spec_object_url b (region environ) (filename file))))
      (mkWorld
         (with_buckets
            (<[b := <[filename file := stream file]> objects]> (s3_buckets (store w)))
            (store w))
         (tail (faults w)))
      [Event (S3UploadFileobj (stream file) (Some b) (filename file)) (inr tt)].
Proof.
  intros Hfile Hname Hb Hobjects Hfree.
  rewrite (upload_file_put reference environ request file w Hfile Hname).
  rewrite (bucket_lookup environ b Hb).
  rewrite reference_serve by exact Hfree.
  rewrite (serve_put _ _ _ _ objects Hname Hobjects).
  reflexivity.
Qed.

(** C1, as amended.  For a part [file] whose filename is not empty, on a
    backend where the configured bucket exists and neither call is failed,
    the upload is answered with the success page and the download that
    follows under the same name is answered with exactly the uploaded
    bytes. *)
Theorem upload_then_download environ w request file b :
  multidict_first "file" (files request) = Some file ->
  filename file <> EmptyString ->
  environ !! "S3_BUCKET" = Some b ->
  is_Some (s3_buckets (store w) !! b) ->
  fault_free 2 w ->
  (exists url,
      result (run reference (upload_file environ request) w)
        = inr (success_page url)) /\
  round_trip environ w request file.
Proof.
  intros Hfile Hname Hb [objects Hobjects] Hfree.
  pose proof (fault_free_head _ _ Hfree) as Hfree1.
  unfold round_trip.
  rewrite (upload_file_stores environ request file w b objects
             Hfile Hname Hb Hobjects Hfree1).
  split; [eexists; reflexivity |].
  cbn [final result]. rewrite download_file_run. cbn [result].
  rewrite (bucket_lookup environ b Hb).
  rewrite reference_serve by (apply fault_free_tail; exact Hfree).
  cbn [store].
  rewrite (serve_get (stream file)) by (exact Hname || apply s3_object_put).
  reflexivity.
Qed.

Lemma upload_then_download_witness :
  (multidict_first "file" (files (Sample.post Sample.report)) = Some Sample.report /\
   filename Sample.report <> EmptyString /\
   Sample.environ !! "S3_BUCKET" = Some "geoiq-files" /\
   is_Some (s3_buckets (store (Sample.healthy Sample.fresh_store)) !! "geoiq-files") /\
   fault_free 2 (Sample.healthy Sample.fresh_store)) /\
  ((exists url,
       result (run reference (upload_file Sample.environ (Sample.post Sample.report))
                 (Sample.healthy Sample.fresh_store))
         = inr (success_page url)) /\
   round_trip Sample.environ (Sample.healthy Sample.fresh_store)
     (Sample.post Sample.report) Sample.report).
Proof.
  assert (H1 : multidict_first "file" (files (Sample.post Sample.report))
               = Some Sample.report) by reflexivity.
  assert (H2 : filename Sample.report <> EmptyString) by discriminate.
  assert (H3 : Sample.environ !! "S3_BUCKET" = Some "geoiq-files") by reflexivity.
  assert (H4 : is_Some (s3_buckets (store (Sample.healthy Sample.fresh_store))
                          !! "geoiq-files")) by (eexists; reflexivity).
  assert (H5 : fault_free 2 (Sample.healthy Sample.fresh_store)) by constructor.
  split; [repeat split; assumption |].
  exact (upload_then_download Sample.environ (Sample.healthy Sample.fresh_store)
           (Sample.post Sample.report) Sample.report "geoiq-files" H1 H2 H3 H4 H5).
Defined.

(** C1, as stated, fails for the empty filename: the upload is refused
    before anything is stored, and the download that follows does not answer
    with the bytes. *)
Lemma round_trip_fails_for_empty_filename :
  multidict_first "file" (files (Sample.post Sample.unnamed)) = Some Sample.unnamed /\
  ~ round_trip Sample.environ (Sample.healthy Sample.fresh_store)
      (Sample.post Sample.unnamed) Sample.unnamed.
Proof.
  split; [reflexivity |]. unfold round_trip. vm_compute. discriminate.
Qed.

(** C9. An upload that passes the validation makes one call, whatever the
    backend: a put whose key is the filename of the part as submitted and
    whose body is its bytes.  On the reference backend, when the put is
    served, the bucket holds exactly those bytes under that key and is
    otherwise as before, and the answer is the success page, the same whether
    or not the bucket already held an object under that key. *)
Theorem upload_key_is_filename
    {W : Type} (backend : forall X : Type, call X -> W -> (PyException + X) * W)
    (environ : environment) (request : Request) (file : FileStorage) (w : W) :
  multidict_first "file" (files request) = Some file ->
  filename file <> EmptyString ->
  trace (run backend (upload_file environ request) w)
    = [Event (S3UploadFileobj (stream file) (bucket environ) (filename file))
         (fst (backend unit
                 (S3UploadFileobj (stream file) (bucket environ) (filename file)) w))] /\
  forall (v : World) (b : string) (objects : gmap string (list byte)),
    environ !! "S3_BUCKET" = Some b ->
    s3_buckets (store v) !! b = Some objects ->
    fault_free 1 v ->
    s3_buckets (store (final (run reference (upload_file environ request) v)))
      = <[b := <[filename file := stream file]> objects]> (s3_buckets (store v)) /\
    s3_object b (filename file)
      (store (final (run reference (upload_file environ request) v)))
      = Some (stream file) /\
    result (run reference (upload_file environ request) v)
      = inr (success_page (spec_object_url b (region environ) (filename file))).
Proof.
  intros Hfile Hname. split.
  - rewrite (upload_file_put backend environ request file w Hfile Hname).
    reflexivity.
  - intros v b objects Hb Hobjects Hfree.
    rewrite (upload_file_stores environ request file v b objects
               Hfile Hname Hb Hobjects Hfree).
    cbn [trace final result store]. repeat split. apply s3_object_put.
Qed.

Lemma upload_key_is_filename_witness :
  (multidict_first "file" (files (Sample.post Sample.report)) = Some Sample.report /\
   filename Sample.report <> EmptyString) /\
  (Sample.environ !! "S3_BUCKET" = Some "geoiq-files" /\
   s3_buckets (store (Sample.healthy Sample.used_store)) !! "geoiq-files"
     = Some {[ "report.pdf" := [x00] ]} /\
   fault_free 1 (Sample.healthy Sample.used_store)) /\
  s3_object "geoiq-files" "report.pdf"
    (store (final (run reference (upload_file Sample.environ (Sample.post Sample.report))
                     (Sample.healthy Sample.used_store))))
    = Some (stream Sample.report).
Proof.
  assert (H1 : multidict_first "file" (files (Sample.post Sample.report))
               = Some Sample.report) by reflexivity.
  assert (H2 : filename Sample.report <> EmptyString) by discriminate.
  assert (H3 : Sample.environ !! "S3_BUCKET" = Some "geoiq-files") by reflexivity.
  assert (H4 : s3_buckets (store (Sample.healthy Sample.used_store)) !! "geoiq-files"
               = Some {[ "report.pdf" := [x00] ]}) by reflexivity.
  assert (H5 : fault_free 1 (Sample.healthy Sample.used_store)) by constructor.
  split; [split; assumption |].
  split; [repeat split; assumption |].
  exact (proj1 (proj2
    (proj2 (upload_key_is_filename reference Sample.environ
              (Sample.post Sample.report) Sample.report
              (Sample.healthy Sample.used_store) H1 H2)
       (Sample.healthy Sample.used_store) "geoiq-files" _ H3 H4 H5))).
Defined.

(** ** The database probe on the reference backend *)

(** What a run of [db_test] that answers 200 has done. *)
Lemma db_test_once environ w resp :
  result (run reference (db_test environ) w) = inr resp ->
  status resp = 200 ->
  resp = ok (jsonify
               [("results",
                 json_of_rows (default [] (pg_table (store w))
                                 ++ [(next_id (store w), "GeoIQ")]))]) /\
  pg_table (store (final (run reference (db_test environ) w)))
    = Some (default [] (pg_table (store w)) ++ [(next_id (store w), "GeoIQ")]) /\
  trace (run reference (db_test environ) w)
    = db_test_calls environ (fresh (dom (pg_conns (store w))))
        (fresh (dom (pg_cursors (store w))))
        (default [] (pg_table (store w)) ++ [(next_id (store w), "GeoIQ")]).
Proof.
  intros Hres Hst.
  destruct (db_test_run reference environ w)
    as [(e & _ & Hres' & _) | (conn & cur & results & Htrace & _)].
  - rewrite Hres' in Hres. injection Hres as Hr. rewrite <- Hr in Hst.
    discriminate Hst.
  - assert (Hnone : first_raised (trace (run reference (db_test environ) w)) = None)
      by (rewrite Htrace; reflexivity).
    pose proof (run_reference_returned _ (db_test environ) w Hnone) as Hsim.
    cbn zeta in Hsim.
    destruct (id_taken (store w)) eqn:Hid.
    + pose proof (db_test_serve_taken environ (store w) Hid) as Htaken.
      rewrite Hsim in Htaken. cbn [result] in Htaken.
      rewrite Htaken in Hres. injection Hres as Hr. rewrite <- Hr in Hst.
      discriminate Hst.
    + rewrite (db_test_serve environ (store w) Hid) in Hsim.
      pose proof (f_equal result Hsim) as Hr.
      pose proof (f_equal final Hsim) as Hf.
      pose proof (f_equal trace Hsim) as Ht.
      cbn [result final trace] in Hr, Hf, Ht.
      rewrite <- Hr in Hres. injection Hres as Hresp.
      rewrite <- Hf, <- Ht. cbn [pg_table]. by rewrite Hresp.
Qed.

Lemma result_set_rows rows :
  result_set (ok (jsonify [("results", json_of_rows rows)]))
  = Some (map (fun r : Z * string => JArr [JNum (fst r); JStr (snd r)]) rows).
Proof. reflexivity. Qed.

(** C7, as amended.  When [db_test] answers 200, that is, when the
    connection and every later call of the handler returned, the committed
    relation is what it was (empty if it did not exist) followed by one new
    row of value GeoIQ, the calls include the insert and the commit, and the
    answer is the JSON object whose key [results] holds the whole relation.
    The next invocation that answers 200 returns one row more. *)
Theorem db_test_appends_one_row environ w resp :
  result (run reference (db_test environ) w) = inr resp ->
  status resp = 200 ->
  (exists id : Z,
      pg_table (store (final (run reference (db_test environ) w)))
        = Some (default [] (pg_table (store w)) ++ [(id, "GeoIQ")]) /\
      resp = ok (jsonify
                   [("results",
                     json_of_rows (default [] (pg_table (store w))
                                     ++ [(id, "GeoIQ")]))])) /\
  (exists conn cur results,
      trace (run reference (db_test environ) w)
        = db_test_calls environ conn cur results) /\
  (forall resp',
      result (run reference (db_test environ)
                (final (run reference (db_test environ) w))) = inr resp' ->
      status resp' = 200 ->
      exists items items',
        result_set resp = Some items /\
        result_set resp' = Some items' /\
        length items' = S (length items)).
Proof.
  intros Hres Hst.
  destruct (db_test_once environ w resp Hres Hst) as (Hresp & Htable & Htrace).
  split; [eexists; split; [exact Htable | exact Hresp] |].
  split; [eexists _, _, _; exact Htrace |].
  intros resp' Hres' Hst'.
  destruct (db_test_once environ _ resp' Hres' Hst') as (Hresp' & _ & _).
  rewrite Htable in Hresp'. rewrite Hresp, Hresp'.
  eexists _, _. rewrite !result_set_rows. repeat split.
  rewrite !length_map. cbn [from_option id]. rewrite !length_app.
  cbn [length]. lia.
Qed.

Lemma db_test_appends_one_row_witness :
  (result (run reference (db_test Sample.environ) (Sample.healthy Sample.fresh_store))
     = inr (ok (jsonify [("results", json_of_rows [(1, "GeoIQ")])])) /\
   status (ok (jsonify [("results", json_of_rows [(1, "GeoIQ")])])) = 200) /\
  exists id : Z,
    pg_table (store (final (run reference (db_test Sample.environ)
                              (Sample.healthy Sample.fresh_store))))
      = Some (default [] (pg_table (store (Sample.healthy Sample.fresh_store)))
                ++ [(id, "GeoIQ")]) /\
    ok (jsonify [("results", json_of_rows [(1, "GeoIQ")])])
      = ok (jsonify
              [("results",
                json_of_rows
                  (default [] (pg_table (store (Sample.healthy Sample.fresh_store)))
                     ++ [(id, "GeoIQ")]))]).
Proof.
  assert (H1 : result (run reference (db_test Sample.environ)
                         (Sample.healthy Sample.fresh_store))
               = inr (ok (jsonify [("results", json_of_rows [(1, "GeoIQ")])])))
    by (vm_compute; reflexivity).
  assert (H2 : status (ok (jsonify [("results", json_of_rows [(1, "GeoIQ")])])) = 200)
    by reflexivity.
  split; [split; assumption |].
  exact (proj1 (db_test_appends_one_row Sample.environ
                  (Sample.healthy Sample.fresh_store) _ H1 H2)).
Defined.

(** C7, as stated, fails in two worlds where the connection succeeds: in
    one the insert is failed by the backend, in the other the id the insert
    draws is already in the relation.  In both the handler answers 500 and
    commits nothing. *)
Lemma connection_succeeds_insert_fails :
  ~ (connection_succeeds Sample.environ Sample.insert_fails ->
     probe_inserts_one_row Sample.environ Sample.insert_fails) /\
  ~ (connection_succeeds Sample.environ Sample.id_in_use ->
     probe_inserts_one_row Sample.environ Sample.id_in_use).
Proof.
  split; intros H;
    (destruct H as (id & _ & Hres); [eexists _, _; reflexivity |]);
    vm_compute in Hres; discriminate Hres.
Qed.

Lemma db_test_closes_on_success_only_witness :
  ((result (run reference (db_test Sample.environ) (Sample.healthy Sample.fresh_store))
      = inr (ok (jsonify [("results", json_of_rows [(1, "GeoIQ")])])) /\
    status (ok (jsonify [("results", json_of_rows [(1, "GeoIQ")])])) = 200) /\
   exists conn cur results pre,
     trace (run reference (db_test Sample.environ) (Sample.healthy Sample.fresh_store))
       = db_test_calls Sample.environ conn cur results /\
     db_test_calls Sample.environ conn cur results
       = pre ++ [Event (CurClose cur) (inr tt); Event (ConnClose conn) (inr tt)]) /\
  ((trace (run reference (db_test Sample.environ) Sample.insert_fails)
      = Event (PgConnect (db_params Sample.environ)) (inr 0%nat)
          :: [ Event (ConnCursor 0%nat) (inr 0%nat);
               Event (CurExecute 0%nat CREATE_TABLE) (inr tt);
               Event (CurExecute 0%nat INSERT_ROW) (inl Sample.ConnectionReset) ] /\
    first_raised
      [ Event (ConnCursor 0%nat) (inr 0%nat);
        Event (CurExecute 0%nat CREATE_TABLE) (inr tt);
        Event (CurExecute 0%nat INSERT_ROW) (inl Sample.ConnectionReset) ]
      = Some Sample.ConnectionReset) /\
   result (run reference (db_test Sample.environ) Sample.insert_fails)
     = inr (internal_error Sample.ConnectionReset) /\
   existsb closes_connection
     [ Event (ConnCursor 0%nat) (inr 0%nat);
       Event (CurExecute 0%nat CREATE_TABLE) (inr tt);
       Event (CurExecute 0%nat INSERT_ROW) (inl Sample.ConnectionReset) ]
     = false).
Proof.
  assert (H1 : result (run reference (db_test Sample.environ)
                         (Sample.healthy Sample.fresh_store))
               = inr (ok (jsonify [("results", json_of_rows [(1, "GeoIQ")])])))
    by (vm_compute; reflexivity).
  assert (H2 : status (ok (jsonify [("results", json_of_rows [(1, "GeoIQ")])])) = 200)
    by reflexivity.
  assert (H3 : trace (run reference (db_test Sample.environ) Sample.insert_fails)
               = Event (PgConnect (db_params Sample.environ)) (inr 0%nat)
                   :: [ Event (ConnCursor 0%nat) (inr 0%nat);
                        Event (CurExecute 0%nat CREATE_TABLE) (inr tt);
                        Event (CurExecute 0%nat INSERT_ROW)
                          (inl Sample.ConnectionReset) ])
    by (vm_compute; reflexivity).
  assert (H4 : first_raised
                 [ Event (ConnCursor 0%nat) (inr 0%nat);
                   Event (CurExecute 0%nat CREATE_TABLE) (inr tt);
                   Event (CurExecute 0%nat INSERT_ROW) (inl Sample.ConnectionReset) ]
               = Some Sample.ConnectionReset) by reflexivity.
  split; (split; [split; assumption |]).
  - exact (proj1 (db_test_closes_on_success_only reference Sample.environ
                    (Sample.healthy Sample.fresh_store)) _ H1 H2).
  - exact (proj2 (db_test_closes_on_success_only reference Sample.environ
                    Sample.insert_fails) _ _ _ H3 H4).
Defined.

(** X15. On the reference backend, a download under a name that is not in
    the configured bucket is answered 500 with the text of the not-found
    error of the store, like any other failure. *)
Lemma download_missing_key environ name w b :
  environ !! "S3_BUCKET" = Some b ->
  name <> EmptyString ->
  s3_object b name (store w) = None ->
  fault_free 1 w ->
  result (run reference (download_file environ name) w)
    = inr (internal_error NotFound).
Proof.
  intros Hb Hname Hobj Hfree. rewrite download_file_run. cbn [result].
  rewrite (bucket_lookup environ b Hb), reference_serve by exact Hfree.
  cbn [serve fst]. unfold s3_download_fileobj.
  destruct (String.eqb_spec name EmptyString) as [E | _]; [contradiction |].
  by rewrite Hobj.
Qed.

(** ** The sample inputs, run *)

Example download_when_fetch_fails :
  result (run reference (download_file Sample.environ "report.pdf") Sample.fetch_fails)
  = inr (internal_error Sample.ConnectionReset).
Proof. vm_compute. reflexivity. Qed.

Example probe_twice :
  let first := run reference (db_test Sample.environ) (Sample.healthy Sample.fresh_store) in
  let second := run reference (db_test Sample.environ) (final first) in
  result first = inr (ok (jsonify [("results", json_of_rows [(1, "GeoIQ")])])) /\
  result second
    = inr (ok (jsonify [("results", json_of_rows [(1, "GeoIQ"); (2, "GeoIQ")])])).
Proof. vm_compute. split; reflexivity. Qed.

Example probe_with_id_in_use :
  result (run reference (db_test Sample.environ) Sample.id_in_use)
    = inr (internal_error UniqueViolation) /\
  pg_table (store (final (run reference (db_test Sample.environ) Sample.id_in_use)))
    = Some [(1, "GeoIQ")].
Proof. vm_compute. split; reflexivity. Qed.

Example overwrite_is_silent :
  result (run reference (upload_file Sample.environ (Sample.post Sample.report))
            (Sample.healthy Sample.used_store))
  = result (run reference (upload_file Sample.environ (Sample.post Sample.report))
              (Sample.healthy Sample.fresh_store)).
Proof. vm_compute. reflexivity. Qed.

(** * Further properties of the handlers *)

Lemma multidict_contains_spec k d :
  multidict_contains k d
  = match multidict_first k d with Some _ => true | None => false end.
Proof.
  induction d as [| [k' v'] d IH]; cbn; [reflexivity |].
  destruct (String.eqb k' k); [reflexivity | exact IH].
Qed.

(** X1. A request is answered without any backend call exactly when it is
    for [/up], for [/upload], or an upload that fails one of the two
    validation tests; the world is then left as it was. *)
Theorem no_backend_call_iff
    {W : Type} (backend : forall X : Type, call X -> W -> (PyException + X) * W)
    (environ : environment) (r : route) (w : W) :
  (trace (run backend (dispatch environ r) w) = [] <->
   match r with
   | RouteUp | RouteUpload => True
   | RouteUploadSuccess request =>
       match multidict_first "file" (files request) with
       | None => True
       | Some file => filename file = EmptyString
       end
   | RouteFile _ | RouteDbTest => False
   end) /\
  (trace (run backend (dispatch environ r) w) = [] ->
   final (run backend (dispatch environ r) w) = w).
Proof.
  destruct r as [| | request | name |]; cbn [dispatch].
  - split; [split |]; reflexivity || exact (fun _ => I).
  - split; [split |]; reflexivity || exact (fun _ => I).
  - destruct (multidict_first "file" (files request)) as [file |] eqn:Hfile.
    + destruct (String.eqb_spec (filename file) EmptyString) as [He | Hne].
      * rewrite (upload_file_empty backend environ request file w Hfile He).
        split; [split |]; reflexivity || (intros _; exact He).
      * rewrite (upload_file_put backend environ request file w Hfile Hne).
        cbn [trace]. split; [split |]; intros H;
          discriminate H || contradiction.
    + assert (Hin : multidict_contains "file" (files request) = false)
        by (rewrite multidict_contains_spec, Hfile; reflexivity).
      rewrite (upload_file_missing backend environ request w Hin).
      split; [split |]; reflexivity || exact (fun _ => I).
  - rewrite download_file_run. cbn [trace].
    split; [split |]; intros H; discriminate H || contradiction.
  - destruct (db_test_run backend environ w)
      as [(e & Hraised & _ & _) | (conn & cur & results & Htrace & _)].
    + split; [split |]; intros H; try contradiction;
        rewrite H in Hraised; discriminate Hraised.
    + rewrite Htrace. split; [split |]; intros H; discriminate H || contradiction.
Qed.

(** X2. In every handler no call follows a call that raised: nothing is
    retried and nothing is cleaned up.  A request makes at most nine calls. *)
Theorem no_call_after_exception
    {W : Type} (backend : forall X : Type, call X -> W -> (PyException + X) * W)
    (environ : environment) (r : route) (w : W) :
  only_last_raises (trace (run backend (dispatch environ r) w)) = true /\
  (length (trace (run backend (dispatch environ r) w)) <= 9)%nat.
Proof.
  destruct r as [| | request | name |]; cbn [dispatch].
  - split; [reflexivity | cbn; lia].
  - split; [reflexivity | cbn; lia].
  - destruct (multidict_first "file" (files request)) as [file |] eqn:Hfile.
    + destruct (String.eqb_spec (filename file) EmptyString) as [He | Hne].
      * rewrite (upload_file_empty backend environ request file w Hfile He).
        split; [reflexivity | cbn; lia].
      * rewrite (upload_file_put backend environ request file w Hfile Hne).
        cbn [trace only_last_raises raised length].
        split; [by destruct (fst (backend _ _ w)) | lia].
    + assert (Hin : multidict_contains "file" (files request) = false)
        by (rewrite multidict_contains_spec, Hfile; reflexivity).
      rewrite (upload_file_missing backend environ request w Hin).
      split; [reflexivity | cbn; lia].
  - rewrite download_file_run. cbn [trace only_last_raises raised length].
    split; [by destruct (fst (backend _ _ w)) | lia].
  - cbn.
    repeat (backend_step backend; [split; [reflexivity | lia] |]).
    split; [reflexivity | lia].
Qed.

(** Which service the calls of a handler go to. *)
Lemma dispatch_touches
    {W : Type} (backend : forall X : Type, call X -> W -> (PyException + X) * W)
    (environ : environment) (r : route) (w : W) :
  match r with
  | RouteDbTest =>
      forallb touches_db (trace (run backend (dispatch environ r) w)) = true
  | _ =>
      forallb touches_s3 (trace (run backend (dispatch environ r) w)) = true
  end.
Proof.
  destruct r as [| | request | name |]; cbn [dispatch]; try reflexivity.
  - destruct (multidict_first "file" (files request)) as [file |] eqn:Hfile.
    + destruct (String.eqb_spec (filename file) EmptyString) as [He | Hne].
      * by rewrite (upload_file_empty backend environ request file w Hfile He).
      * by rewrite (upload_file_put backend environ request file w Hfile Hne).
    + assert (Hin : multidict_contains "file" (files request) = false)
        by (rewrite multidict_contains_spec, Hfile; reflexivity).
      by rewrite (upload_file_missing backend environ request w Hin).
  - by rewrite download_file_run.
  - cbn. repeat (backend_step backend; [reflexivity |]). reflexivity.
Qed.

(** X3. The upload and the download handler call the object store only, the
    database probe calls the database only, whatever the calls return. *)
Theorem handlers_keep_to_their_service
    {W : Type} (backend : forall X : Type, call X -> W -> (PyException + X) * W)
    (environ : environment) (r : route) (w : W) :
  match r with
  | RouteDbTest =>
      forallb touches_db (trace (run backend (dispatch environ r) w)) = true
  | _ =>
      forallb touches_s3 (trace (run backend (dispatch environ r) w)) = true
  end.
Proof. exact (dispatch_touches backend environ r w). Qed.

(** X4. When the download handler answers 200, the fetch from the configured
    bucket under the requested name returned, and the answer is an
    attachment that carries exactly the bytes fetched, under the requested
    name; the fetch is the only call. *)
Theorem download_passes_bytes_through
    {W : Type} (backend : forall X : Type, call X -> W -> (PyException + X) * W)
    (environ : environment) (name : string) (w : W) (resp : response) :
  result (run backend (download_file environ name) w) = inr resp ->
  status resp = 200 ->
  exists data w',
    backend (list byte) (S3DownloadFileobj (environ !! "S3_BUCKET") name) w
      = (inr data, w') /\
    resp = mkResponse (SendFile data name true) 200 /\
    final (run backend (download_file environ name) w) = w' /\
    trace (run backend (download_file environ name) w)
      = [Event (S3DownloadFileobj (environ !! "S3_BUCKET") name) (inr data)].
Proof.
  intros Hres Hst. rewrite download_file_run in Hres |- *.
  cbn [result final trace] in Hres |- *.
  change (bucket environ) with (environ !! "S3_BUCKET") in Hres |- *.
  destruct (backend _ (S3DownloadFileobj (environ !! "S3_BUCKET") name) w)
    as [[e | data] w'] eqn:Hcall; cbn [fst snd] in Hres |- *;
    injection Hres as Hr; rewrite <- Hr in Hst |- *.
  - discriminate Hst.
  - exists data, w'. repeat split.
Qed.

Lemma download_passes_bytes_through_witness :
  (result (run reference (download_file Sample.environ "report.pdf")
             (Sample.healthy Sample.used_store))
     = inr (mkResponse (SendFile [x00] "report.pdf" true) 200) /\
   status (mkResponse (SendFile [x00] "report.pdf" true) 200) = 200) /\
  exists data w',
    reference (list byte) (S3DownloadFileobj (Sample.environ !! "S3_BUCKET") "report.pdf")
      (Sample.healthy Sample.used_store) = (inr data, w') /\
    mkResponse (SendFile [x00] "report.pdf" true) 200
      = mkResponse (SendFile data "report.pdf" true) 200 /\
    final (run reference (download_file Sample.environ "report.pdf")
             (Sample.healthy Sample.used_store)) = w' /\
    trace (run reference (download_file Sample.environ "report.pdf")
             (Sample.healthy Sample.used_store))
      = [Event (S3DownloadFileobj (Sample.environ !! "S3_BUCKET") "report.pdf")
           (inr data)].
Proof.
  assert (H1 : result (run reference (download_file Sample.environ "report.pdf")
                         (Sample.healthy Sample.used_store))
               = inr (mkResponse (SendFile [x00] "report.pdf" true) 200))
    by (vm_compute; reflexivity).
  assert (H2 : status (mkResponse (SendFile [x00] "report.pdf" true) 200) = 200)
    by reflexivity.
  split; [split; assumption |].
  exact (download_passes_bytes_through reference Sample.environ "report.pdf"
           (Sample.healthy Sample.used_store) _ H1 H2).
Defined.

(** X5. The upload handler looks at the first part named [file] and at
    nothing else of the form: two requests that agree on it are handled by
    the same program, so they get the same answer and make the same calls on
    every backend. *)
Theorem upload_reads_first_file_part_only
    (environ : environment) (request request' : Request) :
  multidict_first "file" (files request) = multidict_first "file" (files request') ->
  upload_file environ request = upload_file environ request'.
Proof.
  intros H. unfold upload_file, multidict_getitem.
  rewrite !multidict_contains_spec, H. reflexivity.
Qed.

Lemma upload_reads_first_file_part_only_witness :
  multidict_first "file"
    (files (mkRequest [("note", Sample.unnamed); ("file", Sample.report);
                       ("file", Sample.unnamed)]))
  = multidict_first "file" (files (Sample.post Sample.report)) /\
  upload_file Sample.environ
    (mkRequest [("note", Sample.unnamed); ("file", Sample.report);
                ("file", Sample.unnamed)])
  = upload_file Sample.environ (Sample.post Sample.report).
Proof.
  assert (H : multidict_first "file"
                (files (mkRequest [("note", Sample.unnamed); ("file", Sample.report);
                                   ("file", Sample.unnamed)]))
              = multidict_first "file" (files (Sample.post Sample.report)))
    by reflexivity.
  split; [exact H |].
  exact (upload_reads_first_file_part_only Sample.environ _ _ H).
Defined.

(** ** What a run leaves unchanged on the reference backend *)

Section Preserved.

Context {A : Type}.
Variable f : Store -> A.
Variable safe : event -> bool.
Hypothesis serve_safe :
  forall (X : Type) (c : call X) s x s',
    serve X c s = (x, s') -> safe (Event c x) = true -> f s' = f s.

Lemma reference_preserves X (c : call X) w x w' :
  reference X c w = (x, w') ->
  safe (Event c x) = true ->
  f (store w') = f (store w).
Proof.
  unfold reference. intros Hr Hsafe.
  destruct (faults w) as [| [e |] fs];
    try (injection Hr as <- <-; reflexivity);
    destruct (serve X c (store w)) as [x0 s] eqn:Hs; injection Hr as <- <-;
    exact (serve_safe X c _ _ _ Hs Hsafe).
Qed.

Lemma run_reference_preserves R (p : prog R) :
  forall w : World,
    forallb safe (trace (run reference p w)) = true ->
    f (store (final (run reference p w))) = f (store w).
Proof.
  induction p as [r | e | X c k IH]; intros w Hsafe; [reflexivity .. |].
  cbn in Hsafe |- *. destruct (reference X c w) as [x w'] eqn:Hr.
  cbn in Hsafe |- *. apply andb_prop in Hsafe as [H1 H2].
  rewrite (IH x w' H2). exact (reference_preserves X c w x w' Hr H1).
Qed.

End Preserved.

Ltac serve_cases H :=
  cbn in H;
  unfold s3_upload_fileobj, s3_download_fileobj, pg_connect, conn_cursor,
    cur_execute, conn_commit, cur_fetchall, cur_close, conn_close in H;
  repeat case_match; simplify_eq.

Lemma serve_db_call_keeps_objects X (c : call X) s x s' :
  serve X c s = (x, s') -> touches_db (Event c x) = true ->
  s3_buckets s' = s3_buckets s.
Proof.
  intros Hs Hdb. destruct c; try discriminate Hdb; serve_cases Hs; reflexivity.
Qed.

Lemma serve_s3_call_keeps_database X (c : call X) s x s' :
  serve X c s = (x, s') -> touches_s3 (Event c x) = true ->
  (pg_table s', pg_seq s', pg_conns s', pg_cursors s')
  = (pg_table s, pg_seq s, pg_conns s, pg_cursors s).
Proof.
  intros Hs Hdb. destruct c; try discriminate Hdb; serve_cases Hs; reflexivity.
Qed.

Lemma serve_without_commit_keeps_relation X (c : call X) s x s' :
  serve X c s = (x, s') -> negb (commits (Event c x)) = true ->
  pg_table s' = pg_table s.
Proof.
  intros Hs Hc. destruct c; serve_cases Hs; try reflexivity; discriminate Hc.
Qed.

(** X6. On the reference backend the database probe never changes the object
    store, and no other handler changes anything of the database: relation,
    sequence, connections and cursors are as they were.  This holds whatever
    fails. *)
Theorem services_do_not_disturb_each_other
    (environ : environment) (r : route) (w : World) :
  match r with
  | RouteDbTest =>
      s3_buckets (store (final (run reference (dispatch environ r) w)))
      = s3_buckets (store w)
  | _ =>
      pg_table (store (final (run reference (dispatch environ r) w)))
        = pg_table (store w) /\
      pg_seq (store (final (run reference (dispatch environ r) w)))
        = pg_seq (store w) /\
      pg_conns (store (final (run reference (dispatch environ r) w)))
        = pg_conns (store w) /\
      pg_cursors (store (final (run reference (dispatch environ r) w)))
        = pg_cursors (store w)
  end.
Proof.
  pose proof (dispatch_touches reference environ r w) as Htouch.
  destruct r as [| | request | name |];
    [ | | | |
      exact (run_reference_preserves _ touches_db
               serve_db_call_keeps_objects _ _ w Htouch) ];
    pose proof (run_reference_preserves _ touches_s3
                  serve_s3_call_keeps_database _ _ w Htouch) as H;
    cbv beta in H;
    (split; [exact (f_equal (fun q => fst (fst (fst q))) H) |]);
    (split; [exact (f_equal (fun q => snd (fst (fst q))) H) |]);
    (split; [exact (f_equal (fun q => snd (fst q)) H) |]);
    exact (f_equal snd H).
Qed.

Lemma serve_download_keeps_store b k s x s' :
  serve (list byte) (S3DownloadFileobj b k) s = (x, s') -> s' = s.
Proof. intros Hs. serve_cases Hs; reflexivity. Qed.

(** X7. On the reference backend a download never changes the store, whether
    it answers with the file or with an error. *)
Theorem download_is_read_only (environ : environment) (name : string) (w : World) :
  store (final (run reference (download_file environ name) w)) = store w.
Proof.
  rewrite download_file_run. cbn [final]. unfold reference.
  destruct (faults w) as [| [e |] fs]; try reflexivity;
    destruct (serve _ _ (store w)) as [x s] eqn:Hs; cbn;
    exact (serve_download_keeps_store _ _ _ _ _ Hs).
Qed.

(** ** What an upload changes on the reference backend *)

Lemma serve_put_frame data bucket key s x s' b k :
  serve unit (S3UploadFileobj data bucket key) s = (x, s') ->
  ~ (bucket = Some b /\ key = k) ->
  s3_object b k s' = s3_object b k s.
Proof.
  intros Hs Hother. serve_cases Hs; try reflexivity.
  unfold s3_object. cbn.
  match goal with H : s3_buckets s !! ?b0 = Some ?objects |- _ =>
    destruct (decide (b0 = b)) as [-> | Hb];
      [ rewrite lookup_insert_eq, H; cbn;
        rewrite lookup_insert_ne; [reflexivity | intros ->; by apply Hother]
      | by rewrite lookup_insert_ne ]
  end.
Qed.

Lemma serve_put_raises data bucket key s e s' :
  serve unit (S3UploadFileobj data bucket key) s = (inl e, s') -> s' = s.
Proof. intros Hs. serve_cases Hs; reflexivity. Qed.

Lemma reference_put_frame data bucket key w x w' b k :
  reference unit (S3UploadFileobj data bucket key) w = (x, w') ->
  ~ (bucket = Some b /\ key = k) ->
  s3_object b k (store w') = s3_object b k (store w).
Proof.
  unfold reference. intros Hr Hother.
  destruct (faults w) as [| [e |] fs];
    try (injection Hr as <- <-; reflexivity);
    destruct (serve _ _ (store w)) as [x0 s] eqn:Hs; injection Hr as <- <-;
    exact (serve_put_frame _ _ _ _ _ _ b k Hs Hother).
Qed.

Lemma reference_put_raises data bucket key w e w' :
  reference unit (S3UploadFileobj data bucket key) w = (inl e, w') ->
  store w' = store w.
Proof.
  unfold reference. intros Hr.
  destruct (faults w) as [| [e0 |] fs];
    try (injection Hr as <- <-; reflexivity);
    destruct (serve _ _ (store w)) as [x0 s] eqn:Hs; injection Hr as -> <-;
    exact (serve_put_raises _ _ _ _ _ _ Hs).
Qed.

(** An upload leaves every object but the one it is for as it was. *)
Lemma upload_file_frame environ request w b k :
  ~ (environ !! "S3_BUCKET" = Some b /\
     filename <$> multidict_first "file" (files request) = Some k) ->
  s3_object b k (store (final (run reference (upload_file environ request) w)))
  = s3_object b k (store w).
Proof.
  intros Hother.
  destruct (multidict_first "file" (files request)) as [file |] eqn:Hfile.
  - destruct (String.eqb_spec (filename file) EmptyString) as [He | Hne].
    + by rewrite (upload_file_empty reference environ request file w Hfile He).
    + rewrite (upload_file_put reference environ request file w Hfile Hne).
      cbn [final].
      destruct (reference _ _ w) as [x w'] eqn:Hr. cbn [snd].
      apply (reference_put_frame _ _ _ _ _ _ b k Hr).
      intros [Hb Hk]. apply Hother. split; [exact Hb | by subst k].
  - assert (Hin : multidict_contains "file" (files request) = false)
      by (rewrite multidict_contains_spec, Hfile; reflexivity).
    by rewrite (upload_file_missing reference environ request w Hin).
Qed.

(** An upload that is not answered 200 leaves the store as it was. *)
Lemma upload_file_refused environ request w resp :
  result (run reference (upload_file environ request) w) = inr resp ->
  status resp <> 200 ->
  store (final (run reference (upload_file environ request) w)) = store w.
Proof.
  intros Hres Hst.
  destruct (multidict_first "file" (files request)) as [file |] eqn:Hfile.
  - destruct (String.eqb_spec (filename file) EmptyString) as [He | Hne].
    + by rewrite (upload_file_empty reference environ request file w Hfile He).
    + rewrite (upload_file_put reference environ request file w Hfile Hne) in Hres |- *.
      cbn [final result] in Hres |- *.
      destruct (reference _ _ w) as [[e | []] w'] eqn:Hr; cbn [fst snd] in Hres |- *.
      * exact (reference_put_raises _ _ _ _ _ _ Hr).
      * injection Hres as Hresp. rewrite <- Hresp in Hst. by destruct Hst.
  - assert (Hin : multidict_contains "file" (files request) = false)
      by (rewrite multidict_contains_spec, Hfile; reflexivity).
    by rewrite (upload_file_missing reference environ request w Hin).
Qed.

(** X8. On the reference backend an upload changes at most one object, the
    one in the configured bucket under the filename of the part [file]:
    every other object of every bucket is as it was.  An upload that is not
    answered 200 changes nothing at all. *)
Theorem upload_changes_one_object
    (environ : environment) (request : Request) (w : World) :
  (forall b k,
      ~ (environ !! "S3_BUCKET" = Some b /\
         filename <$> multidict_first "file" (files request) = Some k) ->
      s3_object b k (store (final (run reference (upload_file environ request) w)))
      = s3_object b k (store w)) /\
  (forall resp,
      result (run reference (upload_file environ request) w) = inr resp ->
      status resp <> 200 ->
      store (final (run reference (upload_file environ request) w)) = store w).
Proof.
  split.
  - intros b k. apply upload_file_frame.
  - intros resp. apply upload_file_refused.
Qed.

Lemma upload_changes_one_object_witness :
  (~ (Sample.environ !! "S3_BUCKET" = Some "geoiq-files" /\
      filename <$> multidict_first "file" (files (Sample.post (mkFile "notes.txt" [x41])))
      = Some "report.pdf")) /\
  s3_object "geoiq-files" "report.pdf"
    (store (final (run reference
                     (upload_file Sample.environ (Sample.post (mkFile "notes.txt" [x41])))
                     (Sample.healthy Sample.used_store))))
  = s3_object "geoiq-files" "report.pdf" (store (Sample.healthy Sample.used_store)).
Proof.
  assert (H : ~ (Sample.environ !! "S3_BUCKET" = Some "geoiq-files" /\
                 filename <$> multidict_first "file"
                                (files (Sample.post (mkFile "notes.txt" [x41])))
                 = Some "report.pdf"))
    by (intros [_ Hk]; discriminate Hk).
  split; [exact H |].
  exact (proj1 (upload_changes_one_object Sample.environ
                  (Sample.post (mkFile "notes.txt" [x41]))
                  (Sample.healthy Sample.used_store)) _ _ H).
Defined.

(** X9. Uploads under different names do not interfere.  After a served
    upload of [file], a second upload request whose part has another
    filename, whatever its outcome, leaves the object in place: a download
    under the name of [file] that the backend does not fail returns the bytes
    of [file]. *)
Theorem upload_under_another_name_keeps_file
    (environ : environment) (w : World) (request request' : Request)
    (file : FileStorage) (b : string) :
  multidict_first "file" (files request) = Some file ->
  filename file <> EmptyString ->
  environ !! "S3_BUCKET" = Some b ->
  is_Some (s3_buckets (store w) !! b) ->
  fault_free 1 w ->
  filename <$> multidict_first "file" (files request') <> Some (filename file) ->
  fault_free 1
    (final (run reference (upload_file environ request')
              (final (run reference (upload_file environ request) w)))) ->
  result
    (run reference (download_file environ (filename file))
       (final (run reference (upload_file environ request')
                 (final (run reference (upload_file environ request) w)))))
  = inr (ok (send_file (stream file) (filename file) true)).
Proof.
  intros Hfile Hname Hb [objects Hobjects] Hfree Hother Hfree'.
  rewrite download_file_run. cbn [result].
  rewrite (bucket_lookup environ b Hb).
  rewrite reference_serve by exact Hfree'.
  rewrite (serve_get (stream file)); [reflexivity | exact Hname |].
  rewrite upload_file_frame by (intros [_ Hk]; contradiction).
  rewrite (upload_file_stores environ request file w b objects
             Hfile Hname Hb Hobjects Hfree).
  cbn [final store]. apply s3_object_put.
Qed.

Lemma upload_under_another_name_keeps_file_witness :
  (multidict_first "file" (files (Sample.post Sample.report)) = Some Sample.report /\
   filename Sample.report <> EmptyString /\
   Sample.environ !! "S3_BUCKET" = Some "geoiq-files" /\
   is_Some (s3_buckets (store (Sample.healthy Sample.fresh_store)) !! "geoiq-files") /\
   fault_free 1 (Sample.healthy Sample.fresh_store) /\
   filename <$> multidict_first "file" (files (Sample.post (mkFile "notes.txt" [x41])))
     <> Some (filename Sample.report) /\
   fault_free 1
     (final (run reference
               (upload_file Sample.environ (Sample.post (mkFile "notes.txt" [x41])))
               (final (run reference
                         (upload_file Sample.environ (Sample.post Sample.report))
                         (Sample.healthy Sample.fresh_store)))))) /\
  result
    (run reference (download_file Sample.environ (filename Sample.report))
       (final (run reference
                 (upload_file Sample.environ (Sample.post (mkFile "notes.txt" [x41])))
                 (final (run reference
                           (upload_file Sample.environ (Sample.post Sample.report))
                           (Sample.healthy Sample.fresh_store))))))
  = inr (ok (send_file (stream Sample.report) (filename Sample.report) true)).
Proof.
  assert (H1 : multidict_first "file" (files (Sample.post Sample.report))
               = Some Sample.report) by reflexivity.
  assert (H2 : filename Sample.report <> EmptyString) by discriminate.
  assert (H3 : Sample.environ !! "S3_BUCKET" = Some "geoiq-files") by reflexivity.
  assert (H4 : is_Some (s3_buckets (store (Sample.healthy Sample.fresh_store))
                          !! "geoiq-files")) by (eexists; reflexivity).
  assert (H5 : fault_free 1 (Sample.healthy Sample.fresh_store)) by constructor.
  assert (H6 : filename <$> multidict_first "file"
                              (files (Sample.post (mkFile "notes.txt" [x41])))
               <> Some (filename Sample.report)) by discriminate.
  assert (H7 : fault_free 1
                 (final (run reference
                           (upload_file Sample.environ
                              (Sample.post (mkFile "notes.txt" [x41])))
                           (final (run reference
                                     (upload_file Sample.environ
                                        (Sample.post Sample.report))
                                     (Sample.healthy Sample.fresh_store))))))
    by (vm_compute; constructor).
  split; [repeat split; assumption |].
  exact (upload_under_another_name_keeps_file Sample.environ
           (Sample.healthy Sample.fresh_store) (Sample.post Sample.report)
           (Sample.post (mkFile "notes.txt" [x41])) Sample.report "geoiq-files"
           H1 H2 H3 H4 H5 H6 H7).
Defined.

(** ** The relation and the commit *)

Lemma no_commit_forallb tr :
  existsb commits tr = false -> forallb (fun ev => negb (commits ev)) tr = true.
Proof.
  induction tr as [| ev tr IH]; cbn; [reflexivity |].
  intros H. apply orb_false_elim in H as [H1 H2]. by rewrite H1, IH.
Qed.

(** X10. On the reference backend, a request during which no
    [conn.commit()] returned leaves the relation as it was.  So a database
    probe that fails at or before its commit has inserted nothing. *)
Theorem no_commit_no_change (environ : environment) (r : route) (w : World) :
  existsb commits (trace (run reference (dispatch environ r) w)) = false ->
  pg_table (store (final (run reference (dispatch environ r) w)))
  = pg_table (store w).
Proof.
  intros H.
  exact (run_reference_preserves _ _ serve_without_commit_keeps_relation _ _ w
           (no_commit_forallb _ H)).
Qed.

Lemma no_commit_no_change_witness :
  existsb commits (trace (run reference (dispatch Sample.environ RouteDbTest)
                            Sample.insert_fails)) = false /\
  pg_table (store (final (run reference (dispatch Sample.environ RouteDbTest)
                            Sample.insert_fails)))
  = pg_table (store Sample.insert_fails).
Proof.
  assert (H : existsb commits
                (trace (run reference (dispatch Sample.environ RouteDbTest)
                          Sample.insert_fails)) = false)
    by (vm_compute; reflexivity).
  split; [exact H |].
  exact (no_commit_no_change Sample.environ RouteDbTest Sample.insert_fails H).
Defined.

Lemma reference_returns X (c : call X) w x w' :
  reference X c w = (inr x, w') -> serve X c (store w) = (inr x, store w').
Proof.
  unfold reference. intros Hr.
  destruct (faults w) as [| [e |] fs]; try discriminate Hr;
    destruct (serve X c (store w)) as [x0 s]; by injection Hr as -> <-.
Qed.

Ltac serve_step_in H :=
  cbn -[fresh statement] in H;
  unfold conn_cursor, cur_execute, conn_commit, cur_fetchall, cur_close,
    conn_close, open_conn, open_cursor in H;
  repeat progress
    (cbn -[fresh statement] in H;
     rewrite ?lookup_insert_eq, ?statement_create, ?statement_insert,
       ?statement_select in H).

(** The first five calls of [db_test], all returned, on the services. *)
Lemma session_commits environ s conn s1 cur s2 s3 s4 s5 :
  serve nat (PgConnect (db_params environ)) s = (inr conn, s1) ->
  serve nat (ConnCursor conn) s1 = (inr cur, s2) ->
  serve unit (CurExecute cur CREATE_TABLE) s2 = (inr tt, s3) ->
  serve unit (CurExecute cur INSERT_ROW) s3 = (inr tt, s4) ->
  serve unit (ConnCommit conn) s4 = (inr tt, s5) ->
  pg_table s5 = Some (default [] (pg_table s) ++ [(next_id s, "GeoIQ")]).
Proof.
  destruct s as [bk t seq conns curs]. unfold next_id. cbn [pg_table pg_seq].
  intros H1 H2 H3 H4 H5.
  cbn -[fresh] in H1. injection H1 as <- <-.
  serve_step_in H2. injection H2 as <- <-.
  serve_step_in H3. injection H3 as <-.
  serve_step_in H4.
  destruct (existsb _ _); [discriminate H4 |]. injection H4 as <-.
  serve_step_in H5. injection H5 as <-.
  reflexivity.
Qed.

(** What [db_test] does once its commit has returned contains no commit. *)
Lemma after_commit_no_commit
    {W : Type} (backend : forall X : Type, call X -> W -> (PyException + X) * W)
    (conn cur : nat) (w : W) :
  existsb commits
    (trace (run backend
              (try_except
                 (perform (CurExecute cur SELECT_ALL) ;;;
                  results <- perform (CurFetchall cur) ;;
                  perform (CurClose cur) ;;;
                  perform (ConnClose conn) ;;;
                  Ret (ok (jsonify [("results", json_of_rows results)])))
                 error_500) w))
  = false.
Proof.
  cbn. repeat (backend_step backend; [reflexivity |]). reflexivity.
Qed.

(** Once the commit of a run of [db_test] has returned, the relation holds
    the new row, whatever happens next. *)
Lemma db_test_committed environ w :
  existsb commits (trace (run reference (db_test environ) w)) = true ->
  pg_table (store (final (run reference (db_test environ) w)))
  = Some (default [] (pg_table (store w)) ++ [(next_id (store w), "GeoIQ")]).
Proof.
  unfold db_test.
  rewrite run_try_bind_perform.
  destruct (reference _ (PgConnect _) w) as [[e | conn] w1] eqn:H1;
    cbn [fst snd trace final existsb commits orb run error_500];
    [discriminate |].
  rewrite run_try_bind_perform.
  destruct (reference _ (ConnCursor conn) w1) as [[e | cur] w2] eqn:H2;
    cbn [fst snd trace final existsb commits orb run error_500];
    [discriminate |].
  rewrite run_try_bind_perform.
  destruct (reference _ (CurExecute cur CREATE_TABLE) w2) as [[e | []] w3] eqn:H3;
    cbn [fst snd trace final existsb commits orb run error_500];
    [discriminate |].
  rewrite run_try_bind_perform.
  destruct (reference _ (CurExecute cur INSERT_ROW) w3) as [[e | []] w4] eqn:H4;
    cbn [fst snd trace final existsb commits orb run error_500];
    [discriminate |].
  rewrite run_try_bind_perform.
  destruct (reference _ (ConnCommit conn) w4) as [[e | []] w5] eqn:H5;
    cbn [fst snd trace final existsb commits orb run error_500];
    [discriminate |].
  intros _.
  rewrite (run_reference_preserves _ _ serve_without_commit_keeps_relation)
    by (apply no_commit_forallb, after_commit_no_commit).
  exact (session_commits environ _ _ _ _ _ _ _ _
           (reference_returns _ _ _ _ _ H1) (reference_returns _ _ _ _ _ H2)
           (reference_returns _ _ _ _ _ H3) (reference_returns _ _ _ _ _ H4)
           (reference_returns _ _ _ _ _ H5)).
Qed.

(** X11. On the reference backend, once the commit of the database probe has
    returned, the new row is in the relation whatever happens next: a probe
    whose SELECT, fetch or close raises answers 500 and has nevertheless
    inserted its row. *)
Theorem commit_outlives_later_failure (environ : environment) (w : World) :
  existsb commits (trace (run reference (db_test environ) w)) = true ->
  pg_table (store (final (run reference (db_test environ) w)))
  = Some (default [] (pg_table (store w)) ++ [(next_id (store w), "GeoIQ")]).
Proof. exact (db_test_committed environ w). Qed.

Lemma commit_outlives_later_failure_witness :
  existsb commits (trace (run reference (db_test Sample.environ) Failure.select_fails))
    = true /\
  pg_table (store (final (run reference (db_test Sample.environ) Failure.select_fails)))
  = Some (default [] (pg_table (store Failure.select_fails))
            ++ [(next_id (store Failure.select_fails), "GeoIQ")]).
Proof.
  assert (H : existsb commits
                (trace (run reference (db_test Sample.environ) Failure.select_fails))
              = true) by (vm_compute; reflexivity).
  split; [exact H |].
  exact (commit_outlives_later_failure Sample.environ Failure.select_fails H).
Defined.

Example select_fails_answers_500 :
  result (run reference (db_test Sample.environ) Failure.select_fails)
  = inr (internal_error Sample.ConnectionReset).
Proof. vm_compute. reflexivity. Qed.

(** ** Successive probes *)

Lemma answered_200_inv (a : PyException + response) :
  answered_200 a = true -> exists resp, a = inr resp /\ status resp = 200.
Proof.
  destruct a as [e | resp]; cbn; [discriminate |].
  intros H. exists resp. split; [reflexivity | by apply Z.eqb_eq].
Qed.

(** X12. On the reference backend, [n] database probes handled one after the
    other and all answered 200 leave the relation as it was, in the same
    order, followed by exactly [n] new rows of value GeoIQ: no row is ever
    removed or rewritten. *)
Theorem probes_accumulate (environ : environment) (n : nat) :
  forall w : World,
    forallb answered_200
      (fst (handle_in_sequence reference environ (replicate n RouteDbTest) w)) = true ->
    exists news : list (Z * string),
      default [] (pg_table (store (snd (handle_in_sequence reference environ
                                          (replicate n RouteDbTest) w))))
      = default [] (pg_table (store w)) ++ news /\
      length news = n /\
      Forall (fun r => snd r = "GeoIQ") news.
Proof.
  induction n as [| n IH]; intros w Hall.
  - exists []. cbn. by rewrite app_nil_r.
  - cbn [replicate handle_in_sequence dispatch] in Hall |- *.
    destruct (handle_in_sequence reference environ (replicate n RouteDbTest)
                (final (run reference (db_test environ) w)))
      as [answers w'] eqn:Hrest.
    cbn [fst snd forallb] in Hall |- *.
    apply andb_prop in Hall as [Hfirst Hall].
    destruct (answered_200_inv _ Hfirst) as (resp & Hres & Hst).
    destruct (db_test_once environ w resp Hres Hst) as (_ & Htable & _).
    specialize (IH (final (run reference (db_test environ) w))).
    rewrite Hrest in IH. cbn [fst snd] in IH.
    destruct (IH Hall) as (news & Hnews & Hlen & Hvals).
    rewrite Htable in Hnews. cbn [from_option id] in Hnews.
    exists ((next_id (store w), "GeoIQ") :: news).
    split; [| split].
    + rewrite Hnews, <- app_assoc. reflexivity.
    + cbn. by rewrite Hlen.
    + by constructor.
Qed.

Lemma probes_accumulate_witness :
  forallb answered_200
    (fst (handle_in_sequence reference Sample.environ (replicate 3 RouteDbTest)
            (Sample.healthy Sample.fresh_store))) = true /\
  exists news : list (Z * string),
    default [] (pg_table (store (snd (handle_in_sequence reference Sample.environ
                                        (replicate 3 RouteDbTest)
                                        (Sample.healthy Sample.fresh_store)))))
    = default [] (pg_table (store (Sample.healthy Sample.fresh_store))) ++ news /\
    length news = 3%nat /\
    Forall (fun r => snd r = "GeoIQ") news.
Proof.
  assert (H : forallb answered_200
                (fst (handle_in_sequence reference Sample.environ
                        (replicate 3 RouteDbTest)
                        (Sample.healthy Sample.fresh_store))) = true)
    by (vm_compute; reflexivity).
  split; [exact H |].
  exact (probes_accumulate Sample.environ 3 (Sample.healthy Sample.fresh_store) H).
Defined.

(** ** The handles of a probe *)

(** The store a run of [db_test] that answers 200 leaves. *)
Lemma db_test_final_store environ w resp :
  result (run reference (db_test environ) w) = inr resp ->
  status resp = 200 ->
  store (final (run reference (db_test environ) w))
  = mkStore (s3_buckets (store w))
      (Some (default [] (pg_table (store w)) ++ [(next_id (store w), "GeoIQ")]))
      (next_id (store w) + 1)
      (<[fresh (dom (pg_conns (store w))) := mkConn true None]> (pg_conns (store w)))
      (<[fresh (dom (pg_cursors (store w))) :=
           mkCur (fresh (dom (pg_conns (store w)))) true None]>
         (pg_cursors (store w))).
Proof.
  intros Hres Hst.
  destruct (db_test_run reference environ w)
    as [(e & _ & Hres' & _) | (conn & cur & results & Htrace & _)].
  - rewrite Hres' in Hres. injection Hres as Hr. rewrite <- Hr in Hst.
    discriminate Hst.
  - assert (Hnone : first_raised (trace (run reference (db_test environ) w)) = None)
      by (rewrite Htrace; reflexivity).
    pose proof (run_reference_returned _ (db_test environ) w Hnone) as Hsim.
    cbn zeta in Hsim.
    destruct (id_taken (store w)) eqn:Hid.
    + pose proof (db_test_serve_taken environ (store w) Hid) as Htaken.
      rewrite Hsim in Htaken. cbn [result] in Htaken.
      rewrite Htaken in Hres. injection Hres as Hr. rewrite <- Hr in Hst.
      discriminate Hst.
    + rewrite (db_test_serve environ (store w) Hid) in Hsim.
      pose proof (f_equal final Hsim) as Hf. cbn [final] in Hf.
      symmetry. exact Hf.
Qed.

(** X13. On the reference backend, a database probe that answers 200 leaves
    the connection and the cursor it opened closed, with no transaction
    open, and touches no other connection or cursor. *)
Theorem probe_closes_its_handles (environ : environment) (w : World) (resp : response) :
  result (run reference (db_test environ) w) = inr resp ->
  status resp = 200 ->
  pg_conns (store (final (run reference (db_test environ) w)))
    !! fresh (dom (pg_conns (store w))) = Some (mkConn true None) /\
  pg_cursors (store (final (run reference (db_test environ) w)))
    !! fresh (dom (pg_cursors (store w)))
    = Some (mkCur (fresh (dom (pg_conns (store w)))) true None) /\
  (forall conn : nat,
      is_Some (pg_conns (store w) !! conn) ->
      pg_conns (store (final (run reference (db_test environ) w))) !! conn
      = pg_conns (store w) !! conn) /\
  (forall cur : nat,
      is_Some (pg_cursors (store w) !! cur) ->
      pg_cursors (store (final (run reference (db_test environ) w))) !! cur
      = pg_cursors (store w) !! cur).
Proof.
  intros Hres Hst. rewrite (db_test_final_store environ w resp Hres Hst).
  cbn [pg_conns pg_cursors].
  split; [apply lookup_insert_eq |]. split; [apply lookup_insert_eq |].
  split; intros h Hh; apply lookup_insert_ne; intros <-;
    apply elem_of_dom in Hh; exact (is_fresh _ Hh).
Qed.

Lemma probe_closes_its_handles_witness :
  (result (run reference (db_test Sample.environ) (Sample.healthy Sample.fresh_store))
     = inr (ok (jsonify [("results", json_of_rows [(1, "GeoIQ")])])) /\
   status (ok (jsonify [("results", json_of_rows [(1, "GeoIQ")])])) = 200) /\
  pg_conns (store (final (run reference (db_test Sample.environ)
                            (Sample.healthy Sample.fresh_store))))
    !! fresh (dom (pg_conns (store (Sample.healthy Sample.fresh_store))))
  = Some (mkConn true None).
Proof.
  assert (H1 : result (run reference (db_test Sample.environ)
                         (Sample.healthy Sample.fresh_store))
               = inr (ok (jsonify [("results", json_of_rows [(1, "GeoIQ")])])))
    by (vm_compute; reflexivity).
  assert (H2 : status (ok (jsonify [("results", json_of_rows [(1, "GeoIQ")])])) = 200)
    by reflexivity.
  split; [split; assumption |].
  exact (proj1 (probe_closes_its_handles Sample.environ
                  (Sample.healthy Sample.fresh_store) _ H1 H2)).
Defined.

(** ** Witnesses for the lemmas on the reference backend *)

Lemma download_missing_key_witness :
  (Sample.environ !! "S3_BUCKET" = Some "geoiq-files" /\
   "does-not-exist" <> EmptyString /\
   s3_object "geoiq-files" "does-not-exist" (store (Sample.healthy Sample.used_store))
     = None /\
   fault_free 1 (Sample.healthy Sample.used_store)) /\
  result (run reference (download_file Sample.environ "does-not-exist")
            (Sample.healthy Sample.used_store))
  = inr (internal_error NotFound).
Proof.
  assert (H1 : Sample.environ !! "S3_BUCKET" = Some "geoiq-files") by reflexivity.
  assert (H2 : "does-not-exist" <> EmptyString) by discriminate.
  assert (H3 : s3_object "geoiq-files" "does-not-exist"
                 (store (Sample.healthy Sample.used_store)) = None) by reflexivity.
  assert (H4 : fault_free 1 (Sample.healthy Sample.used_store)) by constructor.
  split; [repeat split; assumption |].
  exact (download_missing_key Sample.environ "does-not-exist"
           (Sample.healthy Sample.used_store) "geoiq-files" H1 H2 H3 H4).
Defined.

(** ** The answers of the upload handler and of the probe *)

(** X17. The status of the answer of the upload handler, for every backend:
    400 when the form has no part [file] or its filename is empty, otherwise
    500 when the put raised and 200 when it returned. *)
Theorem upload_status_table
    {W : Type} (backend : forall X : Type, call X -> W -> (PyException + X) * W)
    (environ : environment) (request : Request) (w : W) :
  exists resp,
    result (run backend (upload_file environ request) w) = inr resp /\
    status resp =
      match multidict_first "file" (files request) with
      | None => 400
      | Some file =>
          if String.eqb (filename file) EmptyString then 400
          else
            match fst (backend unit
                         (S3UploadFileobj (stream file) (environ !! "S3_BUCKET")
                            (filename file)) w) with
            | inl _ => 500
            | inr _ => 200
            end
      end.
Proof.
  destruct (multidict_first "file" (files request)) as [file |] eqn:Hfile.
  - destruct (String.eqb_spec (filename file) EmptyString) as [He | Hne].
    + rewrite (upload_file_empty backend environ request file w Hfile He).
      eexists. split; reflexivity.
    + rewrite (upload_file_put backend environ request file w Hfile Hne).
      eexists. split; [reflexivity |].
      change (bucket environ) with (environ !! "S3_BUCKET").
      by destruct (fst (backend _ _ w)).
  - assert (Hin : multidict_contains "file" (files request) = false)
      by (rewrite multidict_contains_spec, Hfile; reflexivity).
    rewrite (upload_file_missing backend environ request w Hin).
    eexists. split; reflexivity.
Qed.

Lemma json_of_rows_inj (rows rows' : list (Z * string)) :
  json_of_rows rows = json_of_rows rows' -> rows = rows'.
Proof.
  unfold json_of_rows. intros H. injection H as H. revert rows' H.
  induction rows as [| [i d] rows IH]; intros [| [i' d'] rows'] H;
    try discriminate H; [reflexivity |].
  cbn in H. injection H as -> -> H. f_equal. by apply IH.
Qed.

(** X18. When the database probe answers 200, on any backend, the array
    under [results] lists exactly the rows [fetchall] returned, in order, one
    pair of id and value per row, and no other row list gives this answer. *)
Theorem probe_answers_what_it_fetched
    {W : Type} (backend : forall X : Type, call X -> W -> (PyException + X) * W)
    (environ : environment) (w : W) (resp : response) :
  result (run backend (db_test environ) w) = inr resp ->
  status resp = 200 ->
  exists conn cur results,
    In (Event (CurFetchall cur) (inr results))
      (trace (run backend (db_test environ) w)) /\
    trace (run backend (db_test environ) w)
      = db_test_calls environ conn cur results /\
    result_set resp
      = Some (map (fun r : Z * string => JArr [JNum (fst r); JStr (snd r)]) results) /\
    forall results',
      resp = ok (jsonify [("results", json_of_rows results')]) ->
      results' = results.
Proof.
  intros Hres Hst.
  destruct (db_test_run backend environ w)
    as [(e & _ & Hres' & _) | (conn & cur & results & Htrace & Hres')].
  - rewrite Hres' in Hres. injection Hres as Hr. rewrite <- Hr in Hst.
    discriminate Hst.
  - rewrite Hres' in Hres. injection Hres as Hr.
    exists conn, cur, results. rewrite Htrace, <- Hr.
    split; [cbn; tauto |]. split; [reflexivity |]. split; [reflexivity |].
    intros results' H. symmetry. apply json_of_rows_inj.
    unfold ok, jsonify in H. congruence.
Qed.

Lemma probe_answers_what_it_fetched_witness :
  (result (run reference (db_test Sample.environ) (Sample.healthy Sample.fresh_store))
     = inr (ok (jsonify [("results", json_of_rows [(1, "GeoIQ")])])) /\
   status (ok (jsonify [("results", json_of_rows [(1, "GeoIQ")])])) = 200) /\
  exists conn cur results,
    In (Event (CurFetchall cur) (inr results))
      (trace (run reference (db_test Sample.environ) (Sample.healthy Sample.fresh_store))) /\
    trace (run reference (db_test Sample.environ) (Sample.healthy Sample.fresh_store))
      = db_test_calls Sample.environ conn cur results /\
    result_set (ok (jsonify [("results", json_of_rows [(1, "GeoIQ")])]))
      = Some (map (fun r : Z * string => JArr [JNum (fst r); JStr (snd r)]) results) /\
    forall results',
      ok (jsonify [("results", json_of_rows [(1, "GeoIQ")])])
      = ok (jsonify [("results", json_of_rows results')]) ->
      results' = results.
Proof.
  assert (H1 : result (run reference (db_test Sample.environ)
                         (Sample.healthy Sample.fresh_store))
               = inr (ok (jsonify [("results", json_of_rows [(1, "GeoIQ")])])))
    by (vm_compute; reflexivity).
  assert (H2 : status (ok (jsonify [("results", json_of_rows [(1, "GeoIQ")])])) = 200)
    by reflexivity.
  split; [split; assumption |].
  exact (probe_answers_what_it_fetched reference Sample.environ
           (Sample.healthy Sample.fresh_store) _ H1 H2).
Defined.

Lemma no_backend_call_iff_witness :
  trace (run reference (dispatch Sample.environ (RouteUploadSuccess Sample.post_without_file))
           Sample.fetch_fails) = [] /\
  final (run reference (dispatch Sample.environ (RouteUploadSuccess Sample.post_without_file))
           Sample.fetch_fails) = Sample.fetch_fails.
Proof.
  assert (H : trace (run reference
                       (dispatch Sample.environ
                          (RouteUploadSuccess Sample.post_without_file))
                       Sample.fetch_fails) = []) by reflexivity.
  split; [exact H |].
  exact (proj2 (no_backend_call_iff reference Sample.environ
                  (RouteUploadSuccess Sample.post_without_file) Sample.fetch_fails) H).
Defined.
